(** * Knowledge Navigator: the React front end ([rag-frontend/src/App.js])

    A shallow embedding of the [App] component's state and of its event
    handlers ([uploadFiles], [removeDocument], [askQuestion], [resetChat]),
    followed by the properties of the conversation log, the document list
    and the requests sent to the backend.

    Conventions of the embedding.
    - The seven [useState] cells are the fields of [AppState].
    - A handler is a computation in the [Handler] monad: it threads the
      pending React state and the log of [fetch] requests, and completes
      normally or by throwing (the [message] of the JavaScript error).
    - A handler is a closure over the state of the render it was created
      in.  Reads of [files], [question], [conversation], ... inside a handler
      see that snapshot (the argument [self]); only the functional update
      [setCurrentDocuments(prev => ...)] reads the pending state.
    - The backend is an oracle [Env.backend] from requests to outcomes of
      [fetch]; [Env.clock] is [new Date().toLocaleTimeString()].
    - JavaScript strings are modelled by [string] (8-bit code units). *)

From Stdlib Require Import List String Ascii Bool Arith NArith Lia DecimalString.
From Equations Require Import Equations.
Import ListNotations.

Local Open Scope string_scope.
Local Open Scope list_scope.

(** ** JavaScript helpers *)

Module Js.

(** The double quote character, as a one-character string. *)
Definition dquote : string := String (ascii_of_nat 34) EmptyString.

(** WhiteSpace and LineTerminator code units below 256: TAB, LF, VT, FF,
    CR, SP and NBSP.  The white space of ECMAScript above 255 (U+1680,
    U+2000 to U+200A, U+2028, U+2029, U+202F, U+205F, U+3000, U+FEFF) is
    outside the 8-bit strings of this development. *)
Definition isWhiteSpace (c : ascii) : bool :=
  existsb (N.eqb (N_of_ascii c)) [9; 10; 11; 12; 13; 32; 160]%N.

Fixpoint trimStart (s : string) : string :=
  match s with
  | EmptyString => EmptyString
  | String c r => if isWhiteSpace c then trimStart r else s
  end.

Fixpoint trimEnd (s : string) : string :=
  match s with
  | EmptyString => EmptyString
  | String c r =>
      match trimEnd r with
      | EmptyString => if isWhiteSpace c then EmptyString else String c EmptyString
      | r' => String c r'
      end
  end.

(** [String.prototype.trim] *)
Definition trim (s : string) : string := trimEnd (trimStart s).

(** [!s] for a string [s]: only the empty string is falsy. *)
Definition not_string (s : string) : bool :=
  match s with EmptyString => true | _ => false end.

(** [x || d] where [x] is a string or [undefined]. *)
Definition or_string (x : option string) (d : string) : string :=
  match x with
  | Some s => if not_string s then d else s
  | None => d
  end.

(** [x || []] where [x] is an array or [undefined] (arrays are truthy). *)
Definition or_array {A} (x : option (list A)) : list A :=
  match x with
  | Some l => l
  | None => []
  end.

(** A string or [undefined] inside a template literal. *)
Definition template (x : option string) : string :=
  match x with
  | Some s => s
  | None => "undefined"
  end.

(** A non-negative integer inside a template literal. *)
Definition number (n : nat) : string := NilEmpty.string_of_uint (Nat.to_uint n).

(** The text of the TypeError raised by reading a property of [null].
    The wording is the engine's (V8's is used); no property below depends
    on it. *)
Definition nullRead (property : string) : string :=
  "Cannot read properties of null (reading '" ++ property ++ "')".

End Js.

(** ** Data *)

Module File.
(** A [File] of the file input: the handlers read its [name] only. *)
Record t := { name : string; bytes : string }.
End File.

Module Turn.
(** An element of [conversation] (App.js, lines 130-135).  [answer] is
    [data.answer], which is [undefined] when the body has no such field. *)
Record t := {
  question : string;
  answer : option string;
  sources : list string;
  timestamp : string
}.
End Turn.

Module Data.
(** The fields the handlers read from a parsed response body; [None] is
    [undefined] (field absent). *)
Record t := {
  answer : option string;
  sources : option (list string);
  detail : option string;
  chunks_indexed : option string
}.
End Data.

(** What [response.json()] produces: it rejects (the body is not JSON),
    or yields [null], or a value whose properties can be read. *)
Inductive Body :=
| Unparseable (message : string)
| Null
| Object (d : Data.t).

Record Response := { ok : bool; body : Body }.

(** The [FormData] of [POST /index]. *)
Record IndexForm := {
  form_files : list File.t;
  chunk_size : nat;
  chunk_overlap : nat
}.

Inductive Request :=
| POST_index (form : IndexForm)
| POST_ask (question : string)
| POST_clear_memory.

(** Outcome of [await fetch(...)]. *)
Inductive FetchOutcome :=
| Rejects (message : string)
| Resolves (r : Response).

Module Env.
Record t := {
  backend : Request -> FetchOutcome;
  clock : string
}.
End Env.

(** The state of the component: one field per [useState] (lines 5-11). *)
Record AppState := {
  files : list File.t;
  question : string;
  conversation : list Turn.t;
  loading : bool;
  status : string;
  backendStatus : string;
  currentDocuments : list string
}.

(** ** The handler monad *)

Record World := { ui : AppState; sent : list Request }.

Inductive Completion (A : Type) :=
| Normal (a : A)
| Throw (message : string).
Arguments Normal {A} a.
Arguments Throw {A} message.

Definition Handler (A : Type) : Type := World -> Completion A * World.

Definition ret {A} (a : A) : Handler A := fun w => (Normal a, w).

Definition throw {A} (message : string) : Handler A := fun w => (Throw message, w).

Definition bind {A B} (c : Handler A) (k : A -> Handler B) : Handler B :=
  fun w =>
    match c w with
    | (Normal a, w') => k a w'
    | (Throw m, w') => (Throw m, w')
    end.

Declare Scope handler_scope.
Delimit Scope handler_scope with handler.
Notation "x <- c ;; k" := (bind c (fun x => k))
  (at level 61, c at next level, right associativity) : handler_scope.
Notation "c ;; k" := (bind c (fun _ => k))
  (at level 61, right associativity) : handler_scope.
Local Open Scope handler_scope.

(** [try { body } catch (error) { handler error.message }] *)
Definition try_catch {A} (body : Handler A) (handler : string -> Handler A) : Handler A :=
  fun w =>
    match body w with
    | (Normal a, w') => (Normal a, w')
    | (Throw m, w') => handler m w'
    end.

(** [try { body } finally { fin }] *)
Definition try_finally {A} (body : Handler A) (fin : Handler unit) : Handler A :=
  fun w =>
    match body w with
    | (c, w') =>
        match fin w' with
        | (Normal _, w'') => (c, w'')
        | (Throw m, w'') => (Throw m, w'')
        end
    end.

(** A state update [setX(f)] on the pending state. *)
Definition update (f : AppState -> AppState) : Handler unit :=
  fun w => (Normal tt, {| ui := f (ui w); sent := sent w |}).

Definition setFiles (v : list File.t) : Handler unit :=
  update (fun s => {| files := v; question := question s; conversation := conversation s;
                      loading := loading s; status := status s;
                      backendStatus := backendStatus s;
                      currentDocuments := currentDocuments s |}).

Definition setQuestion (v : string) : Handler unit :=
  update (fun s => {| files := files s; question := v; conversation := conversation s;
                      loading := loading s; status := status s;
                      backendStatus := backendStatus s;
                      currentDocuments := currentDocuments s |}).

Definition setConversation (v : list Turn.t) : Handler unit :=
  update (fun s => {| files := files s; question := question s; conversation := v;
                      loading := loading s; status := status s;
                      backendStatus := backendStatus s;
                      currentDocuments := currentDocuments s |}).

Definition setLoading (v : bool) : Handler unit :=
  update (fun s => {| files := files s; question := question s; conversation := conversation s;
                      loading := v; status := status s;
                      backendStatus := backendStatus s;
                      currentDocuments := currentDocuments s |}).

Definition setStatus (v : string) : Handler unit :=
  update (fun s => {| files := files s; question := question s; conversation := conversation s;
                      loading := loading s; status := v;
                      backendStatus := backendStatus s;
                      currentDocuments := currentDocuments s |}).

(** [setCurrentDocuments(prev => f prev)]; a plain value is [fun _ => v]. *)
Definition setCurrentDocuments (f : list string -> list string) : Handler unit :=
  update (fun s => {| files := files s; question := question s; conversation := conversation s;
                      loading := loading s; status := status s;
                      backendStatus := backendStatus s;
                      currentDocuments := f (currentDocuments s) |}).

(** [await fetch(...)]: the request is sent, then the promise settles. *)
Definition fetch (env : Env.t) (req : Request) : Handler Response :=
  fun w =>
    let w' := {| ui := ui w; sent := sent w ++ [req] |} in
    match Env.backend env req with
    | Rejects m => (Throw m, w')
    | Resolves r => (Normal r, w')
    end.

(** [await response.json()] *)
Definition json (r : Response) : Handler (option Data.t) :=
  match body r with
  | Unparseable m => throw m
  | Null => ret None
  | Object d => ret (Some d)
  end.

(** [data.property]: a TypeError when [data] is [null]. *)
Definition read {X} (data : option Data.t) (property : string)
    (field : Data.t -> option X) : Handler (option X) :=
  match data with
  | None => throw (Js.nullRead property)
  | Some d => ret (field d)
  end.

(** ** The event handlers *)

(** [uploadFiles], lines 42-86. *)
Definition uploadFiles (env : Env.t) (self : AppState) : Handler unit :=
  if (List.length (files self) =? 0)%nat then
    setStatus "Please select files first"
  else if negb (backendStatus self =? "healthy")%string then
    setStatus "Backend is not healthy. Please check the backend first."
  else
    setLoading true ;;
    setStatus "Uploading and indexing documents..." ;;
    let formData :=
      {| form_files := files self; chunk_size := 1200; chunk_overlap := 150 |} in
    try_finally
      (try_catch
         (response <- fetch env (POST_index formData) ;;
          data <- json response ;;
          if ok response then
            (let documentNames := map File.name (files self) in
             setCurrentDocuments (fun _ => documentNames) ;;
             chunks <- read data "chunks_indexed" Data.chunks_indexed ;;
             setStatus (Js.number (List.length (files self))
                          ++ " document(s) indexed successfully! "
                          ++ Js.template chunks ++ " chunks created.") ;;
             setConversation [] ;;
             setFiles [])
          else
            (detail <- read data "detail" Data.detail ;;
             setStatus ("Error: " ++ Js.or_string detail "Failed to index documents")))
         (fun message => setStatus ("Error: " ++ message)))
      (setLoading false).

(** [removeDocument], lines 88-94. *)
Definition removeDocument (documentName : string) (self : AppState) : Handler unit :=
  setCurrentDocuments (filter (fun doc => negb (doc =? documentName)%string)) ;;
  (if (List.length (currentDocuments self) =? 1)%nat then setConversation [] else ret tt) ;;
  setStatus ("Document " ++ Js.dquote ++ documentName ++ Js.dquote ++ " removed.").

(** [askQuestion], lines 96-148. *)
Definition askQuestion (env : Env.t) (self : AppState) : Handler unit :=
  if Js.not_string (Js.trim (question self)) then
    setStatus "Please enter a question"
  else if negb (backendStatus self =? "healthy")%string then
    setStatus "Backend is not healthy. Please check the backend first."
  else if (List.length (currentDocuments self) =? 0)%nat then
    setStatus "Please upload documents first before asking questions."
  else
    setLoading true ;;
    setStatus "Processing your question..." ;;
    try_finally
      (try_catch
         (response <- fetch env (POST_ask (question self)) ;;
          data <- json response ;;
          if ok response then
            (answer <- read data "answer" Data.answer ;;
             sources <- read data "sources" Data.sources ;;
             let newConversation :=
               conversation self ++
               [ {| Turn.question := question self;
                    Turn.answer := answer;
                    Turn.sources := Js.or_array sources;
                    Turn.timestamp := Env.clock env |} ] in
             setConversation newConversation ;;
             setQuestion EmptyString ;;
             setStatus "Question answered successfully!")
          else
            (detail <- read data "detail" Data.detail ;;
             setStatus ("Error: " ++ Js.or_string detail "Failed to process question")))
         (fun message => setStatus ("Error: " ++ message)))
      (setLoading false).

(** [resetChat], lines 150-171. *)
Definition resetChat (env : Env.t) (self : AppState) : Handler unit :=
  if negb (backendStatus self =? "healthy")%string then
    setStatus "Backend is not healthy. Please check the backend first."
  else
    try_catch
      (response <- fetch env POST_clear_memory ;;
       if ok response then
         (setConversation [] ;;
          setStatus "Chat reset successfully! AI has forgotten the previous conversation.")
       else
         (data <- json response ;;
          detail <- read data "detail" Data.detail ;;
          setStatus ("Error: " ++ Js.or_string detail "Failed to reset chat")))
      (fun message => setStatus ("Error: " ++ message)).

(** Running a handler created in the render of [s]: the pending state starts
    as [s] and no request has been sent. *)
Definition dispatch (h : AppState -> Handler unit) (s : AppState) : World :=
  snd (h s {| ui := s; sent := [] |}).

(** The state and the requests after a handler has run. *)
Definition after (h : AppState -> Handler unit) (s : AppState) : AppState :=
  ui (dispatch h s).

Definition requests (h : AppState -> Handler unit) (s : AppState) : list Request :=
  sent (dispatch h s).

(** ** Views of the state used by the properties *)

(** The orchestrator state as the component computes it: the document
    section and the chat are rendered from [currentDocuments.length > 0],
    and [askQuestion] tests [currentDocuments.length === 0]. *)
Inductive SessionState := Empty | Indexed.

Definition sessionState (s : AppState) : SessionState :=
  match currentDocuments s with
  | [] => Empty
  | _ :: _ => Indexed
  end.

(** The data of a response on which a handler takes its success branch to
    the end: the promise resolved, [response.ok] holds and the body parsed
    to a value whose properties can be read. *)
Definition succeeded (o : FetchOutcome) : option Data.t :=
  match o with
  | Resolves {| ok := true; body := Object d |} => Some d
  | _ => None
  end.

(** The state [s] with its status text replaced. *)
Definition withStatus (v : string) (s : AppState) : AppState :=
  {| files := files s; question := question s; conversation := conversation s;
     loading := loading s; status := v; backendStatus := backendStatus s;
     currentDocuments := currentDocuments s |}.

(** The state after a handler has gone through [try]/[catch]/[finally]
    with only a status text to show. *)
Definition settled (v : string) (s : AppState) : AppState :=
  {| files := files s; question := question s; conversation := conversation s;
     loading := false; status := v; backendStatus := backendStatus s;
     currentDocuments := currentDocuments s |}.

(** The turn [askQuestion] builds from the question, the body and the clock. *)
Definition turnOf (env : Env.t) (q : string) (d : Data.t) : Turn.t :=
  {| Turn.question := q;
     Turn.answer := Data.answer d;
     Turn.sources := Js.or_array (Data.sources d);
     Turn.timestamp := Env.clock env |}.

(** The status texts of the guards. *)
Definition NoFilesSelected : string := "Please select files first".
Definition BlankQuestion : string := "Please enter a question".
Definition BackendNotHealthy : string :=
  "Backend is not healthy. Please check the backend first.".
Definition NoDocumentsIndexed : string :=
  "Please upload documents first before asking questions.".

(** The acknowledgement of [removeDocument]. *)
Definition Removed (documentName : string) : string :=
  "Document " ++ Js.dquote ++ documentName ++ Js.dquote ++ " removed.".

(** The guard that makes a handler return before any request, with the
    status text it sets; [None] when the handler goes on to [fetch]. *)
Definition askGuard (s : AppState) : option string :=
  if Js.not_string (Js.trim (question s)) then Some BlankQuestion
  else if negb (backendStatus s =? "healthy")%string then Some BackendNotHealthy
  else if (List.length (currentDocuments s) =? 0)%nat then Some NoDocumentsIndexed
  else None.

Definition uploadGuard (s : AppState) : option string :=
  if (List.length (files s) =? 0)%nat then Some NoFilesSelected
  else if negb (backendStatus s =? "healthy")%string then Some BackendNotHealthy
  else None.

Definition resetGuard (s : AppState) : option string :=
  if negb (backendStatus s =? "healthy")%string then Some BackendNotHealthy
  else None.

(** The form [uploadFiles] posts. *)
Definition indexForm (s : AppState) : IndexForm :=
  {| form_files := files s; chunk_size := 1200; chunk_overlap := 150 |}.

(** ** User events and runs *)

Inductive Event :=
| SelectFiles (fs : list File.t)          (* onChange of the file input *)
| TypeQuestion (q : string)               (* onChange of the textarea *)
| ClickUpload (env : Env.t)
| ClickRemove (documentName : string)
| ClickSend (env : Env.t)
| ClickReset (env : Env.t).

Definition step (e : Event) (s : AppState) : AppState :=
  match e with
  | SelectFiles fs => after (fun _ => setFiles fs) s
  | TypeQuestion q => after (fun _ => setQuestion q) s
  | ClickUpload env => after (uploadFiles env) s
  | ClickRemove d => after (removeDocument d) s
  | ClickSend env => after (askQuestion env) s
  | ClickReset env => after (resetChat env) s
  end.

Definition run (es : list Event) (s : AppState) : AppState :=
  fold_left (fun s e => step e s) es s.

(** Typing a question and sending it, once per element. *)
Definition askAll (qs : list (string * Env.t)) : list Event :=
  flat_map (fun qe => [TypeQuestion (fst qe); ClickSend (snd qe)]) qs.

(** The turns the answered questions of [qs] give, in order. *)
Definition turnsOf (qs : list (string * Env.t)) : list Turn.t :=
  flat_map
    (fun qe =>
       match succeeded (Env.backend (snd qe) (POST_ask (fst qe))) with
       | Some d => [turnOf (snd qe) (fst qe) d]
       | None => []
       end)
    qs.

(** ** The chunker *)

Module Chunker.

Definition Text := list ascii.

(** Modelled from the spec: the error of the chunker's taxonomy (backend
    code, not part of the sources at hand). *)
Inductive Error := InvalidConfig.

(** Modelled from the spec: the configuration check of [chunk] (the
    chunker lives in the backend, [rag.py], which is not part of the
    sources at hand): chunk_size and overlap are positive integers with
    overlap < chunk_size. *)
Definition validConfig (chunk_size overlap : nat) : bool :=
  ((0 <? chunk_size) && (0 <? overlap) && (overlap <? chunk_size))%nat.

(** Modelled from the spec: the windows of [chunk] (backend code, not part
    of the sources at hand): sequential windows of [size] characters, the
    next one starting [step] characters after the previous one, as long
    as text is left; the last windows may be shorter than [size].  A
    [step] of 0 is excluded by [validConfig]. *)
Equations? windows (step size : nat) (text : Text) : list Text
  by wf (List.length text) lt :=
  windows 0 size text := [];
  windows (S k) size [] := [];
  windows (S k) size (c :: t) :=
    firstn size (c :: t) :: windows (S k) size (skipn (S k) (c :: t)).
Proof. cbn. rewrite length_skipn. lia. Qed.

(** Modelled from the spec: [chunk(text, chunk_size, overlap)] (backend
    code, not part of the sources at hand): fails with [InvalidConfig]
    on an invalid configuration, otherwise yields the windows advancing
    by [chunk_size - overlap]. *)
Definition chunk (text : Text) (chunk_size overlap : nat) : Error + list Text :=
  if validConfig chunk_size overlap
  then inr (windows (chunk_size - overlap) chunk_size text)
  else inl InvalidConfig.

(** The chunks put back together, ignoring the overlap regions: the first
    chunk whole, every later one without its first [overlap] characters. *)
Definition stitch (overlap : nat) (chunks : list Text) : Text :=
  match chunks with
  | [] => []
  | c :: rest => c ++ List.concat (map (skipn overlap) rest)
  end.

End Chunker.

(** ** Sample data *)

Module Sample.

Definition turn0 : Turn.t :=
  {| Turn.question := "What is RAG?"; Turn.answer := Some "Retrieval.";
     Turn.sources := ["a.txt"]; Turn.timestamp := "10:00:00" |}.

(** The state right after mount, before the health probe has answered,
    with [q] typed in. *)
Definition fresh (q : string) : AppState :=
  {| files := []; question := q; conversation := []; loading := false;
     status := EmptyString; backendStatus := "unknown"; currentDocuments := [] |}.

Definition healthy (fs : list File.t) (docs : list string) (log : list Turn.t)
    (q : string) : AppState :=
  {| files := fs; question := q; conversation := log; loading := false;
     status := EmptyString; backendStatus := "healthy"; currentDocuments := docs |}.

Definition paris : Data.t :=
  {| Data.answer := Some "Paris."; Data.sources := Some ["france.txt"];
     Data.detail := None; Data.chunks_indexed := Some "1" |}.

Definition answers (d : Data.t) : Env.t :=
  {| Env.backend := fun _ => Resolves {| ok := true; body := Object d |};
     Env.clock := "10:00:01" |}.

Definition offline : Env.t :=
  {| Env.backend := fun _ => Rejects "Failed to fetch"; Env.clock := "10:00:03" |}.

Definition france : File.t :=
  {| File.name := "france.txt"; File.bytes := "Paris is the capital of France." |}.

Definition capital : string := "What is the capital of France?".

End Sample.

(** ** The health probe, the keyboard handler and the rendered controls *)

Definition setBackendStatus (v : string) : Handler unit :=
  update (fun s => {| files := files s; question := question s; conversation := conversation s;
                      loading := loading s; status := status s;
                      backendStatus := v;
                      currentDocuments := currentDocuments s |}).

Module Health.
(** What [GET /health] gives [checkHealth]: the promise of [fetch] rejects,
    or it resolves and [response.json()] rejects, yields [null], or yields
    a value whose [status] property is read ([None]: no such field).
    [response.ok] is not consulted by the handler. *)
Inductive Body :=
| Unparseable (message : string)
| Null
| Object (status : option string).

Inductive Outcome :=
| Rejects (message : string)
| Resolves (b : Body).
End Health.

(** [data.status] at the end of lines 32-34.  The probe is a GET; [sent],
    the log of the POST requests, is left as it is. *)
Definition healthStatus (o : Health.Outcome) : Handler (option string) :=
  match o with
  | Health.Rejects m => throw m
  | Health.Resolves (Health.Unparseable m) => throw m
  | Health.Resolves Health.Null => throw (Js.nullRead "status")
  | Health.Resolves (Health.Object st) => ret st
  end.

(** [checkHealth], lines 30-40.  [backendStatus] holds text: a [status]
    that is [undefined] is kept as the text the template of line 35 gives
    it; the component only compares [backendStatus] with 'healthy' and
    'error' and interpolates it, where both behave alike. *)
Definition checkHealth (o : Health.Outcome) (self : AppState) : Handler unit :=
  try_catch
    (st <- healthStatus o ;;
     setBackendStatus (Js.template st) ;;
     setStatus ("Backend: " ++ Js.template st))
    (fun message =>
       setBackendStatus "error" ;;
       setStatus ("Backend Error: " ++ message
                    ++ ". Make sure the backend is running on port 8000.")).

(** The fields of the keyboard event that [handleKeyPress] reads. *)
Record KeyboardEvent := { key : string; shiftKey : bool }.

(** [handleKeyPress], lines 173-178; the result tells whether
    [e.preventDefault()] was called. *)
Definition handleKeyPress (env : Env.t) (e : KeyboardEvent) (self : AppState)
    : Handler bool :=
  if (key e =? "Enter")%string && negb (shiftKey e)
  then askQuestion env self ;; ret true
  else ret false.

(** [handleKeyPress] as an event handler whose result is dropped. *)
Definition onKeyPress (env : Env.t) (e : KeyboardEvent) (self : AppState)
    : Handler unit :=
  handleKeyPress env e self ;; ret tt.

Module View.

(** [currentDocuments.length > 0] (lines 197 and 236): the document list
    with its Remove buttons, the Reset Chat button and the chat are
    rendered; otherwise the file input and the upload button are. *)
Definition documentsListed (s : AppState) : bool :=
  (0 <? List.length (currentDocuments s))%nat.

(** [disabled] of the upload button, line 227. *)
Definition uploadDisabled (s : AppState) : bool :=
  loading s || (List.length (files s) =? 0)%nat
  || negb (backendStatus s =? "healthy")%string.

(** [disabled] of the textarea, line 284. *)
Definition textareaDisabled (s : AppState) : bool := loading s.

(** [disabled] of the Send button, line 288. *)
Definition sendDisabled (s : AppState) : bool :=
  loading s || Js.not_string (Js.trim (question s)).

(** The status box is rendered when [status] is truthy, line 305. *)
Definition statusShown (s : AppState) : bool := negb (Js.not_string (status s)).

(** The backend status indicator, lines 188-189. *)
Inductive Indicator := Healthy | Error | Unknown.

Definition indicator (s : AppState) : Indicator :=
  if (backendStatus s =? "healthy")%string then Healthy
  else if (backendStatus s =? "error")%string then Error
  else Unknown.

End View.

(** Everything that makes the component run a handler: the health probe
    (the mount effect of lines 26-28 and the Refresh button), the user
    events, and a key pressed in the textarea. *)
Inductive Action :=
| Probe (o : Health.Outcome)
| User (e : Event)
| KeyPress (env : Env.t) (k : KeyboardEvent).

Definition act (a : Action) (s : AppState) : AppState :=
  match a with
  | Probe o => after (checkHealth o) s
  | User e => step e s
  | KeyPress env k => after (onKeyPress env k) s
  end.

(** The actions one after the other, each handler run to its end before
    the next action: the sessions in which no action arrives while a
    request of [uploadFiles] or [askQuestion] is still pending. *)
Definition play (acts : list Action) (s : AppState) : AppState :=
  fold_left (fun s a => act a s) acts s.

(** Whether the interface rendered from [s] lets the action happen: its
    control is rendered and not disabled. *)
Definition offered (a : Action) (s : AppState) : bool :=
  match a with
  | Probe _ => true
  | User (SelectFiles _) => negb (View.documentsListed s)
  | User (ClickUpload _) => negb (View.documentsListed s) && negb (View.uploadDisabled s)
  | User (ClickRemove d) => existsb (String.eqb d) (currentDocuments s)
  | User (ClickReset _) => View.documentsListed s
  | User (TypeQuestion _) => View.documentsListed s && negb (View.textareaDisabled s)
  | User (ClickSend _) => View.documentsListed s && negb (View.sendDisabled s)
  | KeyPress _ _ => View.documentsListed s && negb (View.textareaDisabled s)
  end.

(** Every action of the list is offered in the state it is performed in. *)
Fixpoint offeredPlay (acts : list Action) (s : AppState) : bool :=
  match acts with
  | [] => true
  | a :: rest => offered a s && offeredPlay rest (act a s)
  end.

(** The files selected by the action, if it selects any, have pairwise
    distinct names. *)
Definition distinctSelection (a : Action) : Prop :=
  match a with
  | User (SelectFiles fs) => NoDup (map File.name fs)
  | _ => True
  end.

(** The conversation is empty whenever no document is listed, and neither
    the listed documents nor the selected files repeat a name. *)
Definition grounded (s : AppState) : Prop :=
  NoDup (currentDocuments s)
  /\ NoDup (map File.name (files s))
  /\ (currentDocuments s = [] -> conversation s = []).

(** Events of the chat only: typing and sending. *)
Definition chatEvent (e : Event) : bool :=
  match e with
  | TypeQuestion _ | ClickSend _ => true
  | _ => false
  end.

(** ** What the chat shows and what reaches the index *)

Module Shown.
(** What the chat renders of a turn (lines 248-269): the question, the
    answer, and the sources joined by ", " when there are any. *)
Record t := { asked : string; answered : option string; cited : option string }.
End Shown.



(** Modelled from the spec: which of the operations the component requests
    change the VectorIndex (section 6; the backend that serves them is not
    part of the sources at hand): Index has the VectorIndex mutation as its
    side effect, Ask and ClearMemory act on the ConversationMemory only. *)
Definition changesIndex (r : Request) : bool :=
  match r with
  | POST_index _ => true
  | POST_ask _ => false
  | POST_clear_memory => false
  end.

(** ** Evaluation of the handlers *)

Ltac guard_cases :=
  repeat match goal with
    | H : context [if ?b then _ else _] |- _ => destruct b eqn:?; try discriminate H
    end.

Ltac backend_cases H :=
  match type of H with
  | succeeded (Env.backend ?env ?req) = _ =>
      unfold fetch;
      destruct (Env.backend env req) as [? | [[] [? | | ?]]];
      cbn in H; try discriminate H
  end.

Lemma askQuestion_guarded env s msg :
  askGuard s = Some msg ->
  dispatch (askQuestion env) s = {| ui := withStatus msg s; sent := [] |}.
Proof.
  unfold askGuard, dispatch, askQuestion. intros H.
  guard_cases; injection H as <-; reflexivity.
Qed.

Lemma askQuestion_success env s d :
  askGuard s = None ->
  succeeded (Env.backend env (POST_ask (question s))) = Some d ->
  dispatch (askQuestion env) s =
    {| ui := {| files := files s; question := EmptyString;
                conversation := conversation s ++ [turnOf env (question s) d];
                loading := false; status := "Question answered successfully!";
                backendStatus := backendStatus s;
                currentDocuments := currentDocuments s |};
       sent := [POST_ask (question s)] |}.
Proof.
  unfold askGuard, dispatch, askQuestion. intros H Hs.
  guard_cases. cbn. backend_cases Hs.
  injection Hs as ->. reflexivity.
Qed.

Lemma askQuestion_failure env s :
  askGuard s = None ->
  succeeded (Env.backend env (POST_ask (question s))) = None ->
  exists msg,
    dispatch (askQuestion env) s =
      {| ui := settled ("Error: " ++ msg) s; sent := [POST_ask (question s)] |}.
Proof.
  unfold askGuard, dispatch, askQuestion. intros H Hs.
  guard_cases. cbn. backend_cases Hs; cbn; eexists; reflexivity.
Qed.

Lemma uploadFiles_guarded env s msg :
  uploadGuard s = Some msg ->
  dispatch (uploadFiles env) s = {| ui := withStatus msg s; sent := [] |}.
Proof.
  unfold uploadGuard, dispatch, uploadFiles. intros H.
  guard_cases; injection H as <-; reflexivity.
Qed.

Lemma uploadFiles_success env s d :
  uploadGuard s = None ->
  succeeded (Env.backend env (POST_index (indexForm s))) = Some d ->
  dispatch (uploadFiles env) s =
    {| ui := {| files := []; question := question s; conversation := [];
                loading := false;
                status := Js.number (List.length (files s))
                            ++ " document(s) indexed successfully! "
                            ++ Js.template (Data.chunks_indexed d) ++ " chunks created.";
                backendStatus := backendStatus s;
                currentDocuments := map File.name (files s) |};
       sent := [POST_index (indexForm s)] |}.
Proof.
  unfold uploadGuard, dispatch, uploadFiles, indexForm. intros H Hs.
  guard_cases. cbn. backend_cases Hs.
  injection Hs as ->. reflexivity.
Qed.

Lemma resetChat_guarded env s msg :
  resetGuard s = Some msg ->
  dispatch (resetChat env) s = {| ui := withStatus msg s; sent := [] |}.
Proof.
  unfold resetGuard, dispatch, resetChat. intros H.
  guard_cases; injection H as <-; reflexivity.
Qed.

Lemma resetChat_success env s r :
  resetGuard s = None ->
  Env.backend env POST_clear_memory = Resolves r ->
  ok r = true ->
  dispatch (resetChat env) s =
    {| ui := {| files := files s; question := question s; conversation := [];
                loading := loading s;
                status := "Chat reset successfully! AI has forgotten the previous conversation.";
                backendStatus := backendStatus s;
                currentDocuments := currentDocuments s |};
       sent := [POST_clear_memory] |}.
Proof.
  unfold resetGuard, dispatch, resetChat. intros H Hb Hok.
  guard_cases. destruct r as [o b]. cbn in Hok. subst o.
  cbn. unfold fetch. rewrite Hb. reflexivity.
Qed.

Lemma removeDocument_dispatch d s :
  dispatch (removeDocument d) s =
    {| ui := {| files := files s; question := question s;
                conversation := if (List.length (currentDocuments s) =? 1)%nat
                                then [] else conversation s;
                loading := loading s;
                status := "Document " ++ Js.dquote ++ d ++ Js.dquote ++ " removed.";
                backendStatus := backendStatus s;
                currentDocuments :=
                  filter (fun doc => negb (doc =? d)%string) (currentDocuments s) |};
       sent := [] |}.
Proof.
  unfold dispatch, removeDocument.
  destruct (List.length (currentDocuments s) =? 1)%nat; reflexivity.
Qed.

(** A request leaves [askQuestion] exactly when none of its guards fires. *)
Lemma askQuestion_calls env s :
  sent (dispatch (askQuestion env) s) <> [] <-> askGuard s = None.
Proof.
  split.
  - destruct (askGuard s) eqn:G; [|reflexivity].
    rewrite (askQuestion_guarded env s _ G). cbn. congruence.
  - intros G.
    destruct (succeeded (Env.backend env (POST_ask (question s)))) eqn:Hs.
    + rewrite (askQuestion_success env s _ G Hs). cbn. discriminate.
    + destruct (askQuestion_failure env s G Hs) as [m ->]. cbn. discriminate.
Qed.

Lemma uploadFiles_calls env s :
  sent (dispatch (uploadFiles env) s) <> [] -> uploadGuard s = None.
Proof.
  destruct (uploadGuard s) eqn:G; [|reflexivity].
  rewrite (uploadFiles_guarded env s _ G). cbn. congruence.
Qed.


Lemma askGuard_passes s :
  askGuard s = None <->
  Js.trim (question s) <> EmptyString /\ backendStatus s = "healthy"
  /\ currentDocuments s <> [].
Proof.
  unfold askGuard. split.
  - intros H. guard_cases. repeat split.
    + intros E. rewrite E in *. discriminate.
    + apply String.eqb_eq. now apply negb_false_iff.
    + intros E. rewrite E in *. discriminate.
  - intros (Hq & Hh & Hd).
    destruct (Js.trim (question s)); [congruence|]. cbn.
    apply String.eqb_eq in Hh. rewrite Hh. cbn.
    destruct (currentDocuments s); [congruence|]. reflexivity.
Qed.

Lemma uploadGuard_unhealthy s :
  backendStatus s <> "healthy" ->
  uploadGuard s = Some (if (List.length (files s) =? 0)%nat
                        then NoFilesSelected else BackendNotHealthy).
Proof.
  intros H. apply String.eqb_neq in H. unfold uploadGuard. rewrite H.
  destruct (_ =? 0)%nat; reflexivity.
Qed.

Lemma askGuard_unhealthy s :
  backendStatus s <> "healthy" ->
  askGuard s = Some (if Js.not_string (Js.trim (question s))
                     then BlankQuestion else BackendNotHealthy).
Proof.
  intros H. apply String.eqb_neq in H. unfold askGuard. rewrite H.
  destruct (Js.not_string _); reflexivity.
Qed.

Lemma resetGuard_unhealthy s :
  backendStatus s <> "healthy" -> resetGuard s = Some BackendNotHealthy.
Proof.
  intros H. apply String.eqb_neq in H. unfold resetGuard. now rewrite H.
Qed.

Lemma askGuard_empty s :
  currentDocuments s = [] ->
  exists msg, askGuard s = Some msg
              /\ In msg [BlankQuestion; BackendNotHealthy; NoDocumentsIndexed].
Proof.
  intros E. unfold askGuard. rewrite E.
  destruct (Js.not_string _); [| destruct (negb _)];
    eexists; (split; [reflexivity | cbn; tauto]).
Qed.

(** A round of [askAll]: the question is typed, then sent. *)
Lemma ask_round q env d s :
  Js.trim q <> EmptyString ->
  backendStatus s = "healthy" ->
  currentDocuments s <> [] ->
  succeeded (Env.backend env (POST_ask q)) = Some d ->
  let s' := step (ClickSend env) (step (TypeQuestion q) s) in
  conversation s' = conversation s ++ [turnOf env q d]
  /\ backendStatus s' = backendStatus s
  /\ currentDocuments s' = currentDocuments s.
Proof.
  intros Hq Hh Hd Hs. cbn [step].
  set (s1 := after (fun _ => setQuestion q) s).
  assert (G : askGuard s1 = None) by (apply askGuard_passes; cbn; auto).
  unfold after at 1 2 3.
  rewrite (askQuestion_success env s1 d G Hs). cbn. auto.
Qed.

Lemma filter_other (d d' : string) (docs : list string) :
  In d' docs -> d' <> d ->
  In d' (filter (fun doc => negb (doc =? d)%string) docs).
Proof.
  intros Hin Hne. apply filter_In. split; [assumption|].
  apply negb_true_iff. now apply String.eqb_neq.
Qed.

Lemma filter_absent (d : string) (docs : list string) :
  ~ In d docs -> filter (fun doc => negb (doc =? d)%string) docs = docs.
Proof.
  induction docs as [|x docs IH]; intros H; [reflexivity|].
  cbn. destruct (String.eqb_spec x d) as [->|Hx].
  - exfalso. apply H. now left.
  - cbn. f_equal. apply IH. intros Hin. apply H. now right.
Qed.

(** ** Evaluation on concrete inputs *)

Example trim_blank :
  Js.not_string (Js.trim (String " " (String (ascii_of_nat 10) EmptyString))) = true.
Proof. reflexivity. Qed.

Example trim_inner_space : Js.trim "  a b  " = "a b".
Proof. reflexivity. Qed.

Example upload_two_files :
  dispatch (uploadFiles (Sample.answers Sample.paris))
    (Sample.healthy [Sample.france; Sample.france] [] [Sample.turn0] EmptyString)
  = {| ui := {| files := []; question := EmptyString; conversation := [];
                loading := false;
                status := "2 document(s) indexed successfully! 1 chunks created.";
                backendStatus := "healthy";
                currentDocuments := ["france.txt"; "france.txt"] |};
       sent := [POST_index {| form_files := [Sample.france; Sample.france];
                              chunk_size := 1200; chunk_overlap := 150 |}] |}.
Proof. reflexivity. Qed.

Example ask_offline :
  after (askQuestion Sample.offline)
    (Sample.healthy [] ["france.txt"] [Sample.turn0] Sample.capital)
  = settled "Error: Failed to fetch"
      (Sample.healthy [] ["france.txt"] [Sample.turn0] Sample.capital).
Proof. reflexivity. Qed.

(** ** The chunker's windows *)

Import Chunker.

Example chunk_alphabet :
  chunk (list_ascii_of_string "abcdefghij") 4 1
  = inr (map list_ascii_of_string ["abcd"; "defg"; "ghij"; "j"]).
Proof. reflexivity. Qed.

Example chunk_no_overlap_refused :
  chunk (list_ascii_of_string "abcdefghij") 4 0 = inl InvalidConfig.
Proof. reflexivity. Qed.

Lemma windows_nil step size : windows step size [] = [].
Proof. destruct step; now simp windows. Qed.

Lemma windows_cons step size text :
  0 < step -> text <> [] ->
  windows step size text = firstn size text :: windows step size (skipn step text).
Proof.
  intros Hs Ht. destruct step; [lia|]. destruct text; [congruence|].
  now simp windows.
Qed.

(** The [i]-th window starts [i * step] characters into the text, and
    there is one as long as that offset lies inside the text. *)
Lemma windows_nth step size :
  0 < step -> forall i text,
  nth_error (windows step size text) i =
    if (i * step <? List.length text)%nat
    then Some (firstn size (skipn (i * step) text)) else None.
Proof.
  intros Hs. induction i as [|i IH]; intros text.
  - destruct text as [|c t].
    + rewrite windows_nil. reflexivity.
    + rewrite windows_cons by (auto; discriminate). reflexivity.
  - destruct text as [|c t].
    + rewrite windows_nil. cbn [nth_error List.length].
      destruct (Nat.ltb_spec (S i * step) 0); [lia | reflexivity].
    + rewrite windows_cons by (auto; discriminate).
      cbn [nth_error]. rewrite IH, length_skipn, skipn_skipn.
      replace (S i * step) with (i * step + step) by lia.
      destruct (Nat.ltb_spec (i * step) (List.length (c :: t) - step));
        destruct (Nat.ltb_spec (i * step + step) (List.length (c :: t)));
        try reflexivity; lia.
Qed.

(** What the windows after the first contribute beyond the overlap. *)
Lemma windows_tail step overlap text :
  0 < step ->
  List.concat (map (skipn overlap) (windows step (step + overlap) text))
  = skipn overlap text.
Proof.
  intros Hs.
  remember (List.length text) as n eqn:Hn. revert text Hn.
  induction n as [n IH] using lt_wf_ind. intros text Hn.
  destruct text as [|c t].
  - rewrite windows_nil. now rewrite skipn_nil.
  - rewrite windows_cons by (auto; discriminate).
    cbn [map List.concat].
    rewrite (IH (List.length (skipn step (c :: t)))); [| | reflexivity].
    + rewrite skipn_skipn.
      replace (step + overlap) with (overlap + step) by lia.
      rewrite <- firstn_skipn_comm.
      rewrite (Nat.add_comm overlap step), <- (skipn_skipn step overlap).
      apply firstn_skipn.
    + rewrite length_skipn. subst n. cbn [List.length]. lia.
Qed.

Lemma windows_stitch step overlap text :
  0 < step -> stitch overlap (windows step (step + overlap) text) = text.
Proof.
  intros Hs. destruct text as [|c t].
  - rewrite windows_nil. reflexivity.
  - rewrite windows_cons by (auto; discriminate).
    cbn [stitch]. rewrite windows_tail by assumption.
    rewrite skipn_skipn, (Nat.add_comm overlap step).
    apply firstn_skipn.
Qed.

Lemma windows_bounded step size text :
  Forall (fun c => List.length c <= size) (windows step size text).
Proof.
  funelim (windows step size text); simp windows; constructor.
  - rewrite length_firstn. lia.
  - assumption.
Qed.

Lemma chunk_invalid text chunk_size overlap :
  validConfig chunk_size overlap = false ->
  chunk text chunk_size overlap = inl InvalidConfig.
Proof. intros H. unfold chunk. now rewrite H. Qed.

Lemma chunk_valid text chunk_size overlap :
  0 < chunk_size -> 0 < overlap -> overlap < chunk_size ->
  chunk text chunk_size overlap
  = inr (windows (chunk_size - overlap) chunk_size text).
Proof.
  intros H1 H2 H3. unfold chunk, validConfig.
  apply Nat.ltb_lt in H1, H2, H3. now rewrite H1, H2, H3.
Qed.

(** ** Properties of the conversation log *)



(** C2, as amended.  [askQuestion] in the [Empty] state sends no request
    and changes nothing but the status text: the conversation log and the
    document list are as before.  The refusal is the blank-question text
    for a blank question, the backend-not-healthy text for a question that
    is not blank while the backend status is not 'healthy', and the
    no-documents text when the question is not blank and the backend status
    is 'healthy'. *)
Theorem ask_on_empty env s :
  sessionState s = Empty ->
  requests (askQuestion env) s = []
  /\ conversation (after (askQuestion env) s) = conversation s
  /\ currentDocuments (after (askQuestion env) s) = currentDocuments s
  /\ (Js.trim (question s) = EmptyString ->
      after (askQuestion env) s = withStatus BlankQuestion s)
  /\ (Js.trim (question s) <> EmptyString -> backendStatus s <> "healthy" ->
      after (askQuestion env) s = withStatus BackendNotHealthy s)
  /\ (Js.trim (question s) <> EmptyString -> backendStatus s = "healthy" ->
      after (askQuestion env) s = withStatus NoDocumentsIndexed s).
Proof.
  unfold sessionState. intros E.
  destruct (currentDocuments s) eqn:Hd; [clear E | discriminate].
  destruct (askGuard_empty s Hd) as (msg & G & _).
  unfold requests, after. rewrite (askQuestion_guarded env s msg G). cbn [ui sent].
  split; [reflexivity | split; [reflexivity | split; [cbn; now rewrite Hd |]]].
  unfold askGuard in G. rewrite Hd in G. cbn in G.
  split; [| split].
  - intros Hq. rewrite Hq in G. cbn in G. congruence.
  - intros Hq Hh. destruct (Js.trim (question s)); [congruence|]. cbn in G.
    apply String.eqb_neq in Hh. rewrite Hh in G. cbn in G. congruence.
  - intros Hq Hh. destruct (Js.trim (question s)); [congruence|]. cbn in G.
    apply String.eqb_eq in Hh. rewrite Hh in G. cbn in G. congruence.
Qed.

Lemma ask_on_empty_witness :
  requests (askQuestion (Sample.answers Sample.paris))
    (Sample.healthy [] [] [Sample.turn0] Sample.capital) = []
  /\ after (askQuestion (Sample.answers Sample.paris))
       (Sample.healthy [] [] [Sample.turn0] Sample.capital)
     = withStatus NoDocumentsIndexed
         (Sample.healthy [] [] [Sample.turn0] Sample.capital).
Proof.
  destruct (ask_on_empty (Sample.answers Sample.paris)
              (Sample.healthy [] [] [Sample.turn0] Sample.capital) eq_refl)
    as (Hreq & _ & _ & _ & _ & Hstatus).
  split; [exact Hreq | apply Hstatus; [vm_compute; discriminate | reflexivity]].
Defined.

(** C2, counterexample.  Right after mount the session is [Empty] and the
    backend status is still 'unknown': a question asked then is refused with
    the backend-not-healthy text, not with the no-documents one. *)
Lemma ask_on_empty_other_refusal :
  sessionState (Sample.fresh Sample.capital) = Empty
  /\ status (after (askQuestion (Sample.answers Sample.paris))
               (Sample.fresh Sample.capital)) = BackendNotHealthy
  /\ status (after (askQuestion (Sample.answers Sample.paris))
               (Sample.fresh Sample.capital)) <> NoDocumentsIndexed.
Proof.
  split; [reflexivity | split; [reflexivity |]].
  intros H. vm_compute in H. discriminate H.
Qed.

(** C3.  When the backend call of [askQuestion] fails (the promise of
    [fetch] rejects, the response is not OK, or reading the body throws),
    the conversation log after the handler is the log before it: no turn,
    whole or partial, is recorded. *)
Theorem ask_failure_keeps_conversation env s :
  succeeded (Env.backend env (POST_ask (question s))) = None ->
  conversation (after (askQuestion env) s) = conversation s.
Proof.
  intros Hs. unfold after. destruct (askGuard s) as [msg|] eqn:G.
  - now rewrite (askQuestion_guarded env s msg G).
  - destruct (askQuestion_failure env s G Hs) as [m ->]. reflexivity.
Qed.

Lemma ask_failure_keeps_conversation_witness :
  requests (askQuestion Sample.offline)
    (Sample.healthy [] ["france.txt"] [Sample.turn0] Sample.capital)
  = [POST_ask Sample.capital]
  /\ conversation
       (after (askQuestion Sample.offline)
          (Sample.healthy [] ["france.txt"] [Sample.turn0] Sample.capital))
     = [Sample.turn0].
Proof.
  split.
  - reflexivity.
  - exact (ask_failure_keeps_conversation Sample.offline
             (Sample.healthy [] ["france.txt"] [Sample.turn0] Sample.capital) eq_refl).
Defined.

(** C4, as amended.  The conversation log of the component has no window:
    with a healthy backend and a document indexed, a run of questions that
    are not blank and are all answered appends one turn per question, in
    the order asked, after the turns already there, and evicts none; the
    log grows by the number of questions. *)
Theorem asks_accumulate qs : forall s,
  backendStatus s = "healthy" ->
  currentDocuments s <> [] ->
  Forall (fun qe => Js.trim (fst qe) <> EmptyString
                    /\ succeeded (Env.backend (snd qe) (POST_ask (fst qe))) <> None) qs ->
  conversation (run (askAll qs) s) = conversation s ++ turnsOf qs
  /\ List.length (conversation (run (askAll qs) s))
     = List.length (conversation s) + List.length qs.
Proof.
  induction qs as [|[q env] qs IH]; intros s Hh Hd Hall.
  - cbn. rewrite app_nil_r. split; [reflexivity | lia].
  - inversion Hall as [|? ? [Hq Hs] Hrest]; subst. cbn [fst snd] in Hq, Hs.
    destruct (succeeded (Env.backend env (POST_ask q))) as [d|] eqn:Hsd; [|congruence].
    destruct (ask_round q env d s Hq Hh Hd Hsd) as (Hc & Hh' & Hd').
    change (run (askAll ((q, env) :: qs)) s)
      with (run (askAll qs) (step (ClickSend env) (step (TypeQuestion q) s))).
    destruct (IH (step (ClickSend env) (step (TypeQuestion q) s))) as [IHc IHl];
      [congruence | congruence | assumption |].
    rewrite IHl, IHc, Hc. cbn [turnsOf flat_map fst snd]. rewrite Hsd.
    rewrite <- app_assoc. split; [reflexivity|].
    rewrite length_app. cbn. lia.
Qed.

Lemma asks_accumulate_witness :
  List.length
    (conversation
       (run (askAll [ ("One?", Sample.answers Sample.paris);
                      ("Two?", Sample.answers Sample.paris);
                      ("Three?", Sample.answers Sample.paris) ])
          (Sample.healthy [] ["france.txt"] [] EmptyString)))
  = 0 + 3.
Proof.
  apply (asks_accumulate
           [ ("One?", Sample.answers Sample.paris);
             ("Two?", Sample.answers Sample.paris);
             ("Three?", Sample.answers Sample.paris) ]
           (Sample.healthy [] ["france.txt"] [] EmptyString)).
  - reflexivity.
  - discriminate.
  - repeat constructor; cbn; discriminate.
Defined.

(** C4, counterexample.  For a window of size 2: after three answered
    questions on an empty log the log holds three turns, and the oldest one
    is still its first element. *)
Lemma conversation_exceeds_window :
  let s3 := run (askAll [ ("One?", Sample.answers Sample.paris);
                          ("Two?", Sample.answers Sample.paris);
                          ("Three?", Sample.answers Sample.paris) ])
              (Sample.healthy [] ["france.txt"] [] EmptyString) in
  ~ List.length (conversation s3) <= 2
  /\ hd_error (conversation s3)
     = Some (turnOf (Sample.answers Sample.paris) "One?" Sample.paris).
Proof.
  split.
  - vm_compute. lia.
  - reflexivity.
Qed.

(** ** Properties of the document list *)

(** C5, as amended.  [removeDocument] never fails and sends no request to
    the backend, so no index entry is removed by it: it removes from the
    component's document list every entry equal to the given name and keeps
    the other entries, so the name is absent afterwards; for a name that is
    not listed the list is unchanged; in both cases the status acknowledges
    a removal. *)
Theorem removeDocument_total d s :
  requests (removeDocument d) s = []
  /\ currentDocuments (after (removeDocument d) s)
     = filter (fun doc => negb (doc =? d)%string) (currentDocuments s)
  /\ ~ In d (currentDocuments (after (removeDocument d) s))
  /\ (forall d', d' <> d -> In d' (currentDocuments s) ->
                 In d' (currentDocuments (after (removeDocument d) s)))
  /\ (~ In d (currentDocuments s) ->
      currentDocuments (after (removeDocument d) s) = currentDocuments s)
  /\ status (after (removeDocument d) s) = Removed d.
Proof.
  unfold requests, after. rewrite removeDocument_dispatch. cbn [ui sent currentDocuments status].
  repeat split.
  - intros Hin. apply filter_In in Hin. destruct Hin as [_ Hne].
    rewrite String.eqb_refl in Hne. discriminate.
  - intros d' Hne Hin. now apply filter_other.
  - apply filter_absent.
Qed.

Lemma removeDocument_total_witness :
  currentDocuments
    (after (removeDocument "b.txt")
       (Sample.healthy [] ["a.txt"] [Sample.turn0] EmptyString))
  = ["a.txt"].
Proof.
  apply (removeDocument_total "b.txt"
           (Sample.healthy [] ["a.txt"] [Sample.turn0] EmptyString)).
  cbn. intros [H | []]. discriminate H.
Defined.

(** C5, counterexample.  Removing "b.txt" when only "a.txt" is listed does
    not fail: the handler acknowledges a removal, the list is as before and
    nothing is sent to the backend. *)
Lemma remove_unknown_acknowledged :
  let s := Sample.healthy [] ["a.txt"] [Sample.turn0] EmptyString in
  ~ In "b.txt" (currentDocuments s)
  /\ status (after (removeDocument "b.txt") s) = Removed "b.txt"
  /\ currentDocuments (after (removeDocument "b.txt") s) = ["a.txt"]
  /\ requests (removeDocument "b.txt") s = [].
Proof.
  cbn zeta. split; [| repeat split].
  cbn. intros [H | []]. discriminate H.
Qed.

(** C6, the code at the failing input.  Two uploaded files of the same
    name give a document list of two entries.  Removing that name removes
    both, so the last document is gone and the session is [Empty]; but the
    handler tests the length of the list before the removal against 1, so
    the conversation log is not cleared, against the handler's own comment
    (clear the conversation when the last document is removed). *)
Lemma remove_duplicate_name_empties :
  let s := Sample.healthy [] ["a.txt"; "a.txt"] [Sample.turn0] EmptyString in
  1 < List.length (currentDocuments s)
  /\ In "a.txt" (currentDocuments s)
  /\ sessionState (after (removeDocument "a.txt") s) = Empty
  /\ conversation (after (removeDocument "a.txt") s) = [Sample.turn0].
Proof.
  cbn zeta. split; [cbn; lia | split; [now left | split; reflexivity]].
Qed.

(** C9, as amended.  When [uploadFiles] is run with files selected and a
    healthy backend status and the index request is answered OK with a
    body whose properties can be read, the conversation log is emptied and
    the document list becomes exactly the names of the uploaded files, in
    their order, whatever the log and the list were; the only request sent
    is the index request (no clear-memory request is involved).  When the
    OK response has a body that is not JSON, the handler reports the error
    and the log and the list are as before. *)
Theorem upload_replaces_documents env s :
  files s <> [] ->
  backendStatus s = "healthy" ->
  (forall d,
     Env.backend env (POST_index (indexForm s))
     = Resolves {| ok := true; body := Object d |} ->
     conversation (after (uploadFiles env) s) = []
     /\ currentDocuments (after (uploadFiles env) s) = map File.name (files s)
     /\ requests (uploadFiles env) s = [POST_index (indexForm s)])
  /\ (forall m,
       Env.backend env (POST_index (indexForm s))
       = Resolves {| ok := true; body := Unparseable m |} ->
       conversation (after (uploadFiles env) s) = conversation s
       /\ currentDocuments (after (uploadFiles env) s) = currentDocuments s
       /\ status (after (uploadFiles env) s) = ("Error: " ++ m)%string).
Proof.
  intros Hf Hh.
  assert (G : uploadGuard s = None).
  { unfold uploadGuard. destruct (files s); [congruence|]. cbn.
    apply String.eqb_eq in Hh. now rewrite Hh. }
  split.
  - intros d Hb. unfold after, requests.
    rewrite (uploadFiles_success env s d G) by now rewrite Hb.
    repeat split.
  - intros m Hb. revert G. unfold after, uploadGuard, dispatch, uploadFiles, indexForm in *.
    intros G. guard_cases. cbn. unfold fetch. rewrite Hb. repeat split.
Qed.

Lemma upload_replaces_documents_witness :
  conversation
    (after (uploadFiles (Sample.answers Sample.paris))
       (Sample.healthy [Sample.france] ["old.txt"] [Sample.turn0] EmptyString)) = []
  /\ currentDocuments
       (after (uploadFiles (Sample.answers Sample.paris))
          (Sample.healthy [Sample.france] ["old.txt"] [Sample.turn0] EmptyString))
     = ["france.txt"].
Proof.
  destruct (upload_replaces_documents (Sample.answers Sample.paris)
              (Sample.healthy [Sample.france] ["old.txt"] [Sample.turn0] EmptyString))
    as (Hok & _).
  - discriminate.
  - reflexivity.
  - destruct (Hok Sample.paris eq_refl) as (Hc & Hd & _).
    split; [exact Hc | exact Hd].
Defined.

(** C9, counterexample.  With a file selected, a healthy backend status
    and no document listed yet, the backend responds OK to the index
    request, but the body is not JSON: reading it throws before the test
    of [response.ok], the handler reports the error, and the document list
    is not replaced by the name of the uploaded file. *)
Lemma upload_ok_unreadable_body :
  let env := {| Env.backend := fun _ =>
                  Resolves {| ok := true; body := Unparseable "Unexpected token" |};
                Env.clock := "10:00:06" |} in
  let s := Sample.healthy [Sample.france] [] [] EmptyString in
  requests (uploadFiles env) s = [POST_index (indexForm s)]
  /\ currentDocuments (after (uploadFiles env) s) = []
  /\ currentDocuments (after (uploadFiles env) s) <> map File.name (files s)
  /\ status (after (uploadFiles env) s) = "Error: Unexpected token".
Proof.
  cbn zeta. split; [reflexivity | split; [reflexivity | split; [| reflexivity]]].
  vm_compute. discriminate.
Qed.

(** ** Frame properties *)

(** C7.  A successful [resetChat] (run with a healthy backend status, its
    request answered by an OK response) empties the conversation log and,
    apart from the status text that acknowledges it, changes nothing else:
    the document list and every other field are as before.  The only
    request sent is the clear-memory one, and no request that changes the
    VectorIndex is sent. *)
Theorem reset_clears_only_conversation env s r :
  backendStatus s = "healthy" ->
  Env.backend env POST_clear_memory = Resolves r ->
  ok r = true ->
  conversation (after (resetChat env) s) = []
  /\ currentDocuments (after (resetChat env) s) = currentDocuments s
  /\ files (after (resetChat env) s) = files s
  /\ question (after (resetChat env) s) = question s
  /\ loading (after (resetChat env) s) = loading s
  /\ backendStatus (after (resetChat env) s) = backendStatus s
  /\ requests (resetChat env) s = [POST_clear_memory]
  /\ existsb changesIndex (requests (resetChat env) s) = false.
Proof.
  intros Hh Hb Hok.
  assert (G : resetGuard s = None).
  { unfold resetGuard. apply String.eqb_eq in Hh. now rewrite Hh. }
  unfold after, requests. rewrite (resetChat_success env s r G Hb Hok).
  repeat split.
Qed.

Lemma reset_clears_only_conversation_witness :
  conversation
    (after (resetChat (Sample.answers Sample.paris))
       (Sample.healthy [] ["france.txt"] [Sample.turn0] Sample.capital)) = []
  /\ currentDocuments
       (after (resetChat (Sample.answers Sample.paris))
          (Sample.healthy [] ["france.txt"] [Sample.turn0] Sample.capital))
     = ["france.txt"].
Proof.
  destruct (reset_clears_only_conversation (Sample.answers Sample.paris)
              (Sample.healthy [] ["france.txt"] [Sample.turn0] Sample.capital)
              {| ok := true; body := Object Sample.paris |})
    as (Hc & Hd & _).
  - reflexivity.
  - reflexivity.
  - reflexivity.
  - split; [exact Hc | exact Hd].
Defined.

(** C10.  When the backend status is not 'healthy', each of [uploadFiles],
    [askQuestion] and [resetChat] sends no request and leaves the
    conversation log and the document list unchanged: the state after the
    handler is the state before it with another status text. *)
Theorem unhealthy_backend_only_status env s :
  backendStatus s <> "healthy" ->
  forall h, In h [uploadFiles env; askQuestion env; resetChat env] ->
  requests h s = []
  /\ conversation (after h s) = conversation s
  /\ currentDocuments (after h s) = currentDocuments s
  /\ exists msg, after h s = withStatus msg s.
Proof.
  intros Hh h Hin. unfold requests, after.
  destruct Hin as [<- | [<- | [<- | []]]].
  - rewrite (uploadFiles_guarded env s _ (uploadGuard_unhealthy s Hh)).
    repeat split. eexists. reflexivity.
  - rewrite (askQuestion_guarded env s _ (askGuard_unhealthy s Hh)).
    repeat split. eexists. reflexivity.
  - rewrite (resetChat_guarded env s _ (resetGuard_unhealthy s Hh)).
    repeat split. eexists. reflexivity.
Qed.

Lemma unhealthy_backend_only_status_witness :
  requests (askQuestion (Sample.answers Sample.paris)) (Sample.fresh Sample.capital) = []
  /\ conversation
       (after (askQuestion (Sample.answers Sample.paris)) (Sample.fresh Sample.capital))
     = [].
Proof.
  destruct (unhealthy_backend_only_status (Sample.answers Sample.paris)
              (Sample.fresh Sample.capital))
    with (h := askQuestion (Sample.answers Sample.paris)) as (Hr & Hc & _).
  - intros H. vm_compute in H. discriminate H.
  - right. left. reflexivity.
  - split; [exact Hr | exact Hc].
Defined.

(** ** The chunker *)

(** C8.  For every text and every valid configuration (chunk_size and
    overlap positive, overlap < chunk_size) [chunk] yields chunks such
    that: the [i]-th chunk is the window of chunk_size characters starting
    [i * (chunk_size - overlap)] characters into the text, and there is
    one exactly while that offset lies inside the text; the chunks put
    together ignoring the overlap regions give the text back; and no chunk
    is longer than chunk_size. *)
Theorem chunk_covers text chunk_size overlap :
  0 < chunk_size -> 0 < overlap -> overlap < chunk_size ->
  exists chunks,
    chunk text chunk_size overlap = inr chunks
    /\ (forall i,
          nth_error chunks i
          = if (i * (chunk_size - overlap) <? List.length text)%nat
            then Some (firstn chunk_size (skipn (i * (chunk_size - overlap)) text))
            else None)
    /\ stitch overlap chunks = text
    /\ Forall (fun c => List.length c <= chunk_size) chunks.
Proof.
  intros H1 H2 H3. eexists. split; [now apply chunk_valid|].
  split; [| split].
  - intros i. apply windows_nth. lia.
  - replace chunk_size with ((chunk_size - overlap) + overlap) at 2 by lia.
    apply windows_stitch. lia.
  - apply windows_bounded.
Qed.

Lemma chunk_covers_witness :
  exists chunks,
    chunk (list_ascii_of_string "Paris is the capital of France.") 12 4 = inr chunks
    /\ (forall i,
          nth_error chunks i
          = if (i * (12 - 4) <? 31)%nat
            then Some (firstn 12
                         (skipn (i * (12 - 4))
                            (list_ascii_of_string "Paris is the capital of France.")))
            else None)
    /\ stitch 4 chunks = list_ascii_of_string "Paris is the capital of France."
    /\ Forall (fun c => List.length c <= 12) chunks.
Proof.
  apply (chunk_covers (list_ascii_of_string "Paris is the capital of France.") 12 4); lia.
Defined.

(** ** Further evaluation of the handlers *)

Lemma uploadFiles_failure env s :
  uploadGuard s = None ->
  succeeded (Env.backend env (POST_index (indexForm s))) = None ->
  Env.backend env (POST_index (indexForm s)) <> Resolves {| ok := true; body := Null |} ->
  exists msg,
    dispatch (uploadFiles env) s =
      {| ui := settled ("Error: " ++ msg) s; sent := [POST_index (indexForm s)] |}.
Proof.
  unfold uploadGuard, dispatch, uploadFiles, indexForm. intros H Hs Hn.
  guard_cases. cbn. revert Hn. backend_cases Hs; intros Hn; cbn;
    try (eexists; reflexivity).
  congruence.
Qed.

Lemma uploadFiles_null env s :
  uploadGuard s = None ->
  Env.backend env (POST_index (indexForm s)) = Resolves {| ok := true; body := Null |} ->
  dispatch (uploadFiles env) s =
    {| ui := {| files := files s; question := question s;
                conversation := conversation s; loading := false;
                status := "Error: " ++ Js.nullRead "chunks_indexed";
                backendStatus := backendStatus s;
                currentDocuments := map File.name (files s) |};
       sent := [POST_index (indexForm s)] |}.
Proof.
  unfold uploadGuard, dispatch, uploadFiles, indexForm. intros H Hb.
  guard_cases. cbn. unfold fetch. rewrite Hb. reflexivity.
Qed.

Lemma resetChat_failure env s :
  resetGuard s = None ->
  (forall r, Env.backend env POST_clear_memory = Resolves r -> ok r = false) ->
  exists msg,
    dispatch (resetChat env) s =
      {| ui := withStatus ("Error: " ++ msg) s; sent := [POST_clear_memory] |}.
Proof.
  unfold resetGuard, dispatch, resetChat. intros H Hb.
  guard_cases. cbn. unfold fetch.
  destruct (Env.backend env POST_clear_memory) as [m | [o b]].
  - eexists. reflexivity.
  - pose proof (Hb _ eq_refl) as Hok. cbn in Hok. subst o.
    destruct b; cbn; eexists; reflexivity.
Qed.

Lemma checkHealth_dispatch o s :
  exists st msg,
    dispatch (checkHealth o) s =
      {| ui := {| files := files s; question := question s;
                  conversation := conversation s; loading := loading s;
                  status := msg; backendStatus := st;
                  currentDocuments := currentDocuments s |};
         sent := [] |}
    /\ (st = "healthy" <-> o = Health.Resolves (Health.Object (Some "healthy"))).
Proof.
  unfold dispatch, checkHealth.
  destruct o as [m | [m | | [st|]]]; cbn; do 2 eexists; (split; [reflexivity|]);
    split; intros H; try discriminate H.
  - now subst.
  - now injection H as ->.
Qed.

(** ** What the handlers send and what a failure leaves *)

Lemma askQuestion_sent env s :
  sent (dispatch (askQuestion env) s)
  = match askGuard s with Some _ => [] | None => [POST_ask (question s)] end.
Proof.
  destruct (askGuard s) as [msg|] eqn:G.
  - now rewrite (askQuestion_guarded env s msg G).
  - destruct (succeeded (Env.backend env (POST_ask (question s)))) as [d|] eqn:Hs.
    + now rewrite (askQuestion_success env s d G Hs).
    + now destruct (askQuestion_failure env s G Hs) as [m ->].
Qed.

(** The three ways [uploadFiles] ends once its request is out. *)
Lemma uploadFiles_outcomes env s :
  uploadGuard s = None ->
  exists msg docs log fs,
    dispatch (uploadFiles env) s =
      {| ui := {| files := fs; question := question s; conversation := log;
                  loading := false; status := msg;
                  backendStatus := backendStatus s; currentDocuments := docs |};
         sent := [POST_index (indexForm s)] |}
    /\ (docs = currentDocuments s \/ docs = map File.name (files s))
    /\ (log = conversation s \/ log = [])
    /\ (fs = files s \/ fs = []).
Proof.
  intros G.
  destruct (succeeded (Env.backend env (POST_index (indexForm s)))) as [d|] eqn:Hs.
  - rewrite (uploadFiles_success env s d G Hs). do 4 eexists. split; [reflexivity | tauto].
  - destruct (Env.backend env (POST_index (indexForm s))) as [m | [[] [m | | d]]] eqn:Hb;
      try discriminate Hs.
    all: first
      [ rewrite (uploadFiles_null env s G Hb)
      | destruct (uploadFiles_failure env s G) as [msg ->];
        [ now rewrite Hb | rewrite Hb; discriminate | ] ];
      do 4 eexists; (split; [reflexivity | tauto]).
Qed.

Lemma uploadFiles_sent env s :
  sent (dispatch (uploadFiles env) s)
  = match uploadGuard s with Some _ => [] | None => [POST_index (indexForm s)] end.
Proof.
  destruct (uploadGuard s) as [msg|] eqn:G.
  - now rewrite (uploadFiles_guarded env s msg G).
  - now destruct (uploadFiles_outcomes env s G) as (? & ? & ? & ? & -> & _).
Qed.

(** The two ways [resetChat] ends once its request is out. *)
Lemma resetChat_outcomes env s :
  resetGuard s = None ->
  exists msg log,
    dispatch (resetChat env) s =
      {| ui := {| files := files s; question := question s; conversation := log;
                  loading := loading s; status := msg;
                  backendStatus := backendStatus s;
                  currentDocuments := currentDocuments s |};
         sent := [POST_clear_memory] |}
    /\ (log = conversation s \/ log = []).
Proof.
  intros G. destruct (Env.backend env POST_clear_memory) as [m | [[] b]] eqn:Hb.
  - destruct (resetChat_failure env s G) as [msg ->].
    + intros r Hr. rewrite Hb in Hr. discriminate.
    + do 2 eexists. split; [reflexivity | tauto].
  - rewrite (resetChat_success env s _ G Hb eq_refl).
    do 2 eexists. split; [reflexivity | tauto].
  - destruct (resetChat_failure env s G) as [msg ->].
    + intros r Hr. rewrite Hb in Hr. now injection Hr as <-.
    + do 2 eexists. split; [reflexivity | tauto].
Qed.

Lemma resetChat_sent env s :
  sent (dispatch (resetChat env) s)
  = match resetGuard s with Some _ => [] | None => [POST_clear_memory] end.
Proof.
  destruct (resetGuard s) as [msg|] eqn:G.
  - now rewrite (resetChat_guarded env s msg G).
  - now destruct (resetChat_outcomes env s G) as (? & ? & -> & _).
Qed.

(** X2.  An upload that does not go through leaves the document list, the
    conversation log, the selected files and the typed question as they
    were, so the selection can be sent again: this holds when a guard stops
    the handler (no file selected, or a backend status that is not
    'healthy'), whatever the backend would answer, and when the request
    fails (the promise of [fetch] rejects, the response is not OK, or its
    body is not JSON). *)
Theorem upload_failure_keeps_state env s :
  files s = []
  \/ backendStatus s <> "healthy"
  \/ (succeeded (Env.backend env (POST_index (indexForm s))) = None
      /\ Env.backend env (POST_index (indexForm s))
         <> Resolves {| ok := true; body := Null |}) ->
  currentDocuments (after (uploadFiles env) s) = currentDocuments s
  /\ conversation (after (uploadFiles env) s) = conversation s
  /\ files (after (uploadFiles env) s) = files s
  /\ question (after (uploadFiles env) s) = question s.
Proof.
  intros H. unfold after. destruct (uploadGuard s) as [msg|] eqn:G.
  - rewrite (uploadFiles_guarded env s msg G). repeat split.
  - destruct H as [Hf | [Hh | [Hs Hn]]].
    + unfold uploadGuard in G. rewrite Hf in G. discriminate G.
    + rewrite (uploadGuard_unhealthy s Hh) in G. discriminate G.
    + destruct (uploadFiles_failure env s G Hs Hn) as [m ->]. repeat split.
Qed.

Lemma upload_failure_keeps_state_witness :
  currentDocuments
    (after (uploadFiles Sample.offline)
       (Sample.healthy [Sample.france] ["old.txt"] [Sample.turn0] EmptyString))
  = ["old.txt"]
  /\ files
       (after (uploadFiles Sample.offline)
          (Sample.healthy [Sample.france] ["old.txt"] [Sample.turn0] EmptyString))
     = [Sample.france].
Proof.
  destruct (upload_failure_keeps_state Sample.offline
              (Sample.healthy [Sample.france] ["old.txt"] [Sample.turn0] EmptyString))
    as (Hd & _ & Hf & _).
  - right. right. split; [reflexivity | discriminate].
  - split; [exact Hd | exact Hf].
Defined.

(** X3.  When the response to the index request is OK but its body is
    [null], [uploadFiles] has already replaced the document list by the
    names of the selected files when reading the body throws: the
    conversation log and the selection are then left as they were, and the
    loading flag is cleared. *)
Theorem upload_null_body_partial env s :
  requests (uploadFiles env) s <> [] ->
  Env.backend env (POST_index (indexForm s)) = Resolves {| ok := true; body := Null |} ->
  currentDocuments (after (uploadFiles env) s) = map File.name (files s)
  /\ conversation (after (uploadFiles env) s) = conversation s
  /\ files (after (uploadFiles env) s) = files s
  /\ loading (after (uploadFiles env) s) = false.
Proof.
  intros Hreq Hb. apply uploadFiles_calls in Hreq.
  unfold after. rewrite (uploadFiles_null env s Hreq Hb). repeat split.
Qed.

Lemma upload_null_body_partial_witness :
  currentDocuments
    (after (uploadFiles {| Env.backend := fun _ => Resolves {| ok := true; body := Null |};
                           Env.clock := "10:00:04" |})
       (Sample.healthy [Sample.france] [] [Sample.turn0] EmptyString))
  = ["france.txt"]
  /\ conversation
       (after (uploadFiles {| Env.backend := fun _ => Resolves {| ok := true; body := Null |};
                              Env.clock := "10:00:04" |})
          (Sample.healthy [Sample.france] [] [Sample.turn0] EmptyString))
     = [Sample.turn0].
Proof.
  destruct (upload_null_body_partial
              {| Env.backend := fun _ => Resolves {| ok := true; body := Null |};
                 Env.clock := "10:00:04" |}
              (Sample.healthy [Sample.france] [] [Sample.turn0] EmptyString))
    as (Hd & Hc & _).
  - cbn. discriminate.
  - reflexivity.
  - split; [exact Hd | exact Hc].
Defined.

(** X4.  The loading flag: once [uploadFiles] or [askQuestion] has sent its
    request the flag is false when the handler ends, whatever the backend
    did; when a guard returns early the flag is untouched; [resetChat] and
    [removeDocument] never touch it. *)
Theorem loading_cleared env s :
  (forall h, In h [uploadFiles env; askQuestion env] ->
     (requests h s <> [] -> loading (after h s) = false)
     /\ (requests h s = [] -> loading (after h s) = loading s))
  /\ loading (after (resetChat env) s) = loading s
  /\ (forall d, loading (after (removeDocument d) s) = loading s).
Proof.
  unfold requests, after. split; [| split].
  - intros h [<- | [<- | []]].
    + rewrite uploadFiles_sent. destruct (uploadGuard s) as [msg|] eqn:G.
      * rewrite (uploadFiles_guarded env s msg G). split; [congruence | reflexivity].
      * destruct (uploadFiles_outcomes env s G) as (? & ? & ? & ? & -> & _).
        split; [reflexivity | discriminate].
    + rewrite askQuestion_sent. destruct (askGuard s) as [msg|] eqn:G.
      * rewrite (askQuestion_guarded env s msg G). split; [congruence | reflexivity].
      * split; [intros _ | discriminate].
        destruct (succeeded (Env.backend env (POST_ask (question s)))) as [d|] eqn:Hs.
        -- now rewrite (askQuestion_success env s d G Hs).
        -- now destruct (askQuestion_failure env s G Hs) as [m ->].
  - destruct (resetGuard s) as [msg|] eqn:G.
    + now rewrite (resetChat_guarded env s msg G).
    + now destruct (resetChat_outcomes env s G) as (? & ? & -> & _).
  - intros d. now rewrite removeDocument_dispatch.
Qed.

Lemma loading_cleared_witness :
  loading
    (after (askQuestion Sample.offline)
       {| files := []; question := Sample.capital; conversation := [];
          loading := true; status := EmptyString; backendStatus := "healthy";
          currentDocuments := ["france.txt"] |}) = false.
Proof.
  apply (loading_cleared Sample.offline
           {| files := []; question := Sample.capital; conversation := [];
              loading := true; status := EmptyString; backendStatus := "healthy";
              currentDocuments := ["france.txt"] |}).
  - right. left. reflexivity.
  - cbn. discriminate.
Defined.

(** X5.  A handler sends at most one request, and it is the one of its
    endpoint: [uploadFiles] posts the selected files with chunk_size 1200
    and chunk_overlap 150, [askQuestion] posts the question exactly as it
    was typed (not trimmed), [resetChat] posts the clear-memory request,
    and [removeDocument] sends nothing. *)
Theorem one_request_per_handler env s :
  (requests (uploadFiles env) s = []
   \/ requests (uploadFiles env) s
      = [POST_index {| form_files := files s; chunk_size := 1200; chunk_overlap := 150 |}])
  /\ (requests (askQuestion env) s = []
      \/ requests (askQuestion env) s = [POST_ask (question s)])
  /\ (requests (resetChat env) s = []
      \/ requests (resetChat env) s = [POST_clear_memory])
  /\ (forall d, requests (removeDocument d) s = []).
Proof.
  unfold requests. rewrite uploadFiles_sent, askQuestion_sent, resetChat_sent.
  repeat split.
  - destruct (uploadGuard s); [left | right]; reflexivity.
  - destruct (askGuard s); [left | right]; reflexivity.
  - destruct (resetGuard s); [left | right]; reflexivity.
  - intros d. now rewrite removeDocument_dispatch.
Qed.

(** X6.  The typed question is cleared exactly by an answered request.
    When a guard refuses the question (it is blank, the backend status is
    not 'healthy', or no document is listed) or the backend call fails,
    the question, the document list and the selected files are as before,
    so the question can be sent again; when the question passes the guards
    and the call succeeds, the question becomes the empty string. *)
Theorem question_cleared_on_success env s :
  (Js.trim (question s) = EmptyString
   \/ backendStatus s <> "healthy"
   \/ currentDocuments s = []
   \/ succeeded (Env.backend env (POST_ask (question s))) = None ->
     question (after (askQuestion env) s) = question s
     /\ currentDocuments (after (askQuestion env) s) = currentDocuments s
     /\ files (after (askQuestion env) s) = files s)
  /\ (Js.trim (question s) <> EmptyString ->
      backendStatus s = "healthy" ->
      currentDocuments s <> [] ->
      succeeded (Env.backend env (POST_ask (question s))) <> None ->
      question (after (askQuestion env) s) = EmptyString).
Proof.
  unfold after. split.
  - intros H. destruct (askGuard s) as [msg|] eqn:G.
    + rewrite (askQuestion_guarded env s msg G). repeat split.
    + pose proof (proj1 (askGuard_passes s) G) as (Hq & Hh & Hd).
      destruct H as [H | [H | [H | Hs]]]; try contradiction.
      destruct (askQuestion_failure env s G Hs) as [m ->]. repeat split.
  - intros Hq Hh Hd Hs.
    assert (G : askGuard s = None) by (apply askGuard_passes; auto).
    destruct (succeeded (Env.backend env (POST_ask (question s)))) as [d|] eqn:Hsd;
      [| congruence].
    now rewrite (askQuestion_success env s d G Hsd).
Qed.

Lemma question_cleared_on_success_witness :
  question
    (after (askQuestion Sample.offline)
       (Sample.healthy [] ["france.txt"] [] Sample.capital)) = Sample.capital
  /\ question
       (after (askQuestion (Sample.answers Sample.paris))
          (Sample.healthy [] ["france.txt"] [] Sample.capital)) = EmptyString.
Proof.
  split.
  - apply (proj1 (question_cleared_on_success Sample.offline
                    (Sample.healthy [] ["france.txt"] [] Sample.capital))).
    do 3 right. reflexivity.
  - apply (proj2 (question_cleared_on_success (Sample.answers Sample.paris)
                    (Sample.healthy [] ["france.txt"] [] Sample.capital))).
    + vm_compute. discriminate.
    + reflexivity.
    + discriminate.
    + cbn. discriminate.
Defined.



(** X8.  When the clear-memory request is not answered with an OK response
    (the promise rejects or the response is not OK), [resetChat] leaves the
    conversation log as it was: the state is the one before with another
    status text. *)
Theorem reset_failure_keeps_conversation env s :
  (forall r, Env.backend env POST_clear_memory = Resolves r -> ok r = false) ->
  conversation (after (resetChat env) s) = conversation s
  /\ exists msg, after (resetChat env) s = withStatus msg s.
Proof.
  intros Hb. unfold after. destruct (resetGuard s) as [msg|] eqn:G.
  - rewrite (resetChat_guarded env s msg G). split; [reflexivity | now exists msg].
  - destruct (resetChat_failure env s G Hb) as [m ->].
    split; [reflexivity | eexists; reflexivity].
Qed.

Lemma reset_failure_keeps_conversation_witness :
  conversation
    (after (resetChat Sample.offline)
       (Sample.healthy [] ["france.txt"] [Sample.turn0] EmptyString))
  = [Sample.turn0].
Proof.
  apply (reset_failure_keeps_conversation Sample.offline
           (Sample.healthy [] ["france.txt"] [Sample.turn0] EmptyString)).
  intros r H. discriminate H.
Defined.

(** ** Runs of user events *)

(** The ways [askQuestion] ends once its request is out. *)
Lemma askQuestion_outcomes env s :
  askGuard s = None ->
  exists msg q log,
    dispatch (askQuestion env) s =
      {| ui := {| files := files s; question := q; conversation := log;
                  loading := false; status := msg;
                  backendStatus := backendStatus s;
                  currentDocuments := currentDocuments s |};
         sent := [POST_ask (question s)] |}
    /\ (log = conversation s \/ exists t, log = conversation s ++ [t]).
Proof.
  intros G.
  destruct (succeeded (Env.backend env (POST_ask (question s)))) as [d|] eqn:Hs.
  - rewrite (askQuestion_success env s d G Hs). do 3 eexists.
    split; [reflexivity | right; eexists; reflexivity].
  - destruct (askQuestion_failure env s G Hs) as [m ->]. do 3 eexists.
    split; [reflexivity | now left].
Qed.

(** What a user event does to the fields the invariants speak of. *)
Lemma step_summary e s :
  backendStatus (step e s) = backendStatus s
  /\ (conversation (step e s) = conversation s
      \/ conversation (step e s) = []
      \/ exists t, conversation (step e s) = conversation s ++ [t]).
Proof.
  destruct e as [fs | q | env | d | env | env]; cbn [step]; unfold after.
  - cbn. auto.
  - cbn. auto.
  - destruct (uploadGuard s) as [msg|] eqn:G.
    + rewrite (uploadFiles_guarded env s msg G). cbn. auto.
    + destruct (uploadFiles_outcomes env s G) as (? & ? & ? & ? & -> & _ & [-> | ->] & _);
        cbn; auto.
  - rewrite removeDocument_dispatch. cbn.
    destruct (_ =? 1)%nat; auto.
  - destruct (askGuard s) as [msg|] eqn:G.
    + rewrite (askQuestion_guarded env s msg G). cbn. auto.
    + destruct (askQuestion_outcomes env s G) as (? & ? & ? & -> & [-> | [t ->]]);
        cbn; eauto.
  - destruct (resetGuard s) as [msg|] eqn:G.
    + rewrite (resetChat_guarded env s msg G). cbn. auto.
    + destruct (resetChat_outcomes env s G) as (? & ? & -> & [-> | ->]); cbn; auto.
Qed.

(** X9.  No user event changes the backend status: whatever files are
    selected, questions typed and buttons clicked, and whatever the backend
    answers, [backendStatus] after the run is what it was before; only the
    health probe writes it. *)
Theorem run_keeps_backendStatus es : forall s,
  backendStatus (run es s) = backendStatus s.
Proof.
  induction es as [|e es IH]; intros s; [reflexivity|].
  change (run (e :: es) s) with (run es (step e s)).
  rewrite IH. apply step_summary.
Qed.

Lemma step_unhealthy e s :
  backendStatus s <> "healthy" ->
  (conversation (step e s) = conversation s \/ conversation (step e s) = [])
  /\ incl (currentDocuments (step e s)) (currentDocuments s).
Proof.
  intros Hh.
  destruct e as [fs | q | env | d | env | env]; cbn [step]; unfold after.
  - cbn. split; [auto | apply incl_refl].
  - cbn. split; [auto | apply incl_refl].
  - rewrite (uploadFiles_guarded env s _ (uploadGuard_unhealthy s Hh)).
    cbn. split; [auto | apply incl_refl].
  - rewrite removeDocument_dispatch. cbn. split.
    + destruct (_ =? 1)%nat; auto.
    + apply incl_filter.
  - rewrite (askQuestion_guarded env s _ (askGuard_unhealthy s Hh)).
    cbn. split; [auto | apply incl_refl].
  - rewrite (resetChat_guarded env s _ (resetGuard_unhealthy s Hh)).
    cbn. split; [auto | apply incl_refl].
Qed.

(** X10.  While the backend status is not 'healthy', no run of user events
    adds a turn or a document: after the run the conversation log is the
    one before or is empty, and every listed document was listed before. *)
Theorem unhealthy_run_adds_nothing es : forall s,
  backendStatus s <> "healthy" ->
  (conversation (run es s) = conversation s \/ conversation (run es s) = [])
  /\ incl (currentDocuments (run es s)) (currentDocuments s).
Proof.
  induction es as [|e es IH]; intros s Hh.
  - cbn. split; [auto | apply incl_refl].
  - change (run (e :: es) s) with (run es (step e s)).
    destruct (step_unhealthy e s Hh) as [Hc Hd].
    destruct (IH (step e s)) as [IHc IHd].
    { now rewrite (proj1 (step_summary e s)). }
    split.
    + destruct IHc as [-> | ->]; [exact Hc | auto].
    + eapply incl_tran; eassumption.
Qed.

Lemma unhealthy_run_adds_nothing_witness :
  incl
    (currentDocuments
       (run [SelectFiles [Sample.france]; ClickUpload (Sample.answers Sample.paris);
             TypeQuestion Sample.capital; ClickSend (Sample.answers Sample.paris)]
          (Sample.fresh EmptyString)))
    [].
Proof.
  apply (unhealthy_run_adds_nothing
           [SelectFiles [Sample.france]; ClickUpload (Sample.answers Sample.paris);
            TypeQuestion Sample.capital; ClickSend (Sample.answers Sample.paris)]
           (Sample.fresh EmptyString)).
  cbn. discriminate.
Defined.

(** X11.  Typing and sending never remove or rewrite a recorded turn: after
    any run of chat events the conversation log before the run is a prefix
    of the log after it. *)
Theorem chat_run_extends_log es : forall s,
  forallb chatEvent es = true ->
  exists added, conversation (run es s) = conversation s ++ added.
Proof.
  induction es as [|e es IH]; intros s Hall.
  - exists []. cbn. now rewrite app_nil_r.
  - cbn [forallb] in Hall. apply andb_prop in Hall. destruct Hall as [He Hes].
    change (run (e :: es) s) with (run es (step e s)).
    destruct (IH (step e s) Hes) as [added ->].
    destruct e as [fs | q | env | d | env | env]; try discriminate He;
      cbn [step]; unfold after.
    + cbn. now exists added.
    + destruct (askGuard s) as [msg|] eqn:G.
      * rewrite (askQuestion_guarded env s msg G). cbn. now exists added.
      * destruct (askQuestion_outcomes env s G) as (? & ? & ? & -> & [-> | [t ->]]); cbn.
        -- now exists added.
        -- exists (t :: added). now rewrite <- app_assoc.
Qed.

Lemma chat_run_extends_log_witness :
  exists added,
    conversation
      (run [TypeQuestion Sample.capital; ClickSend Sample.offline;
            ClickSend (Sample.answers Sample.paris)]
         (Sample.healthy [] ["france.txt"] [Sample.turn0] EmptyString))
    = [Sample.turn0] ++ added.
Proof.
  apply (chat_run_extends_log
           [TypeQuestion Sample.capital; ClickSend Sample.offline;
            ClickSend (Sample.answers Sample.paris)]
           (Sample.healthy [] ["france.txt"] [Sample.turn0] EmptyString)).
  reflexivity.
Defined.

(** ** More on removing documents *)

Lemma filter_twice (d : string) (docs : list string) :
  filter (fun doc => negb (doc =? d)%string)
    (filter (fun doc => negb (doc =? d)%string) docs)
  = filter (fun doc => negb (doc =? d)%string) docs.
Proof.
  induction docs as [|x docs IH]; [reflexivity|].
  cbn. destruct (negb (x =? d)%string) eqn:E; [|exact IH].
  cbn. rewrite E. now f_equal.
Qed.

Lemma filter_swap (d1 d2 : string) (docs : list string) :
  filter (fun doc => negb (doc =? d2)%string)
    (filter (fun doc => negb (doc =? d1)%string) docs)
  = filter (fun doc => negb (doc =? d1)%string)
      (filter (fun doc => negb (doc =? d2)%string) docs).
Proof.
  induction docs as [|x docs IH]; [reflexivity|].
  cbn. destruct (negb (x =? d1)%string) eqn:E1;
    destruct (negb (x =? d2)%string) eqn:E2; cbn; rewrite ?E1, ?E2; now rewrite ?IH.
Qed.

Lemma filter_listed_shorter (d : string) (docs : list string) :
  In d docs ->
  List.length (filter (fun doc => negb (doc =? d)%string) docs) < List.length docs.
Proof.
  induction docs as [|x docs IH]; intros Hin; [destruct Hin|].
  cbn. destruct (String.eqb_spec x d) as [->|Hx]; cbn.
  - pose proof (filter_length_le (fun doc => negb (doc =? d)%string) docs). lia.
  - destruct Hin as [-> | Hin]; [congruence|]. specialize (IH Hin). lia.
Qed.

(** X12.  Removing documents composes as on a set of names: removing a
    listed name makes the list strictly shorter, removing any name never
    makes it longer, removing the same name again changes nothing in the
    list, and two removals give the same list in either order. *)
Theorem remove_documents_compose d1 d2 s :
  let docsAfter h := currentDocuments (after h s) in
  List.length (docsAfter (removeDocument d1)) <= List.length (currentDocuments s)
  /\ (In d1 (currentDocuments s) ->
      List.length (docsAfter (removeDocument d1)) < List.length (currentDocuments s))
  /\ currentDocuments (after (removeDocument d1) (after (removeDocument d1) s))
     = docsAfter (removeDocument d1)
  /\ currentDocuments (after (removeDocument d2) (after (removeDocument d1) s))
     = currentDocuments (after (removeDocument d1) (after (removeDocument d2) s)).
Proof.
  cbn zeta. unfold after. rewrite !removeDocument_dispatch. cbn [ui currentDocuments].
  repeat split.
  - apply filter_length_le.
  - apply filter_listed_shorter.
  - apply filter_twice.
  - apply filter_swap.
Qed.

Lemma remove_documents_compose_witness :
  List.length
    (currentDocuments
       (after (removeDocument "a.txt")
          (Sample.healthy [] ["a.txt"; "b.txt"; "a.txt"] [] EmptyString)))
  < 3.
Proof.
  apply (remove_documents_compose "a.txt" "b.txt"
           (Sample.healthy [] ["a.txt"; "b.txt"; "a.txt"] [] EmptyString)).
  now left.
Defined.

(** ** The health probe *)

(** X13.  The health probe writes the backend status and the status text
    and nothing else.  The backend status becomes 'healthy' exactly when
    the probe is answered by a body whose [status] is 'healthy' (the HTTP
    status of the response plays no part); when the promise rejects or the
    body cannot be read it becomes 'error', which the indicator shows. *)
Theorem probe_sets_backend_status o s :
  conversation (after (checkHealth o) s) = conversation s
  /\ currentDocuments (after (checkHealth o) s) = currentDocuments s
  /\ files (after (checkHealth o) s) = files s
  /\ question (after (checkHealth o) s) = question s
  /\ loading (after (checkHealth o) s) = loading s
  /\ (backendStatus (after (checkHealth o) s) = "healthy"
      <-> o = Health.Resolves (Health.Object (Some "healthy")))
  /\ ((forall st, o <> Health.Resolves (Health.Object st)) ->
      backendStatus (after (checkHealth o) s) = "error"
      /\ View.indicator (after (checkHealth o) s) = View.Error).
Proof.
  unfold after, dispatch, checkHealth, View.indicator.
  destruct o as [m | [m | | [x|]]]; cbn;
    (do 5 (split; [reflexivity|])); (split; [split; intros H | intros Hno]);
    try discriminate H; try (split; reflexivity);
    try (now elim (Hno (Some x))); try (now elim (Hno None)).
  - now subst.
  - now injection H as ->.
Qed.

Lemma probe_sets_backend_status_witness :
  backendStatus
    (after (checkHealth (Health.Rejects "Failed to fetch")) (Sample.fresh EmptyString))
  = "error".
Proof.
  apply (probe_sets_backend_status (Health.Rejects "Failed to fetch")
           (Sample.fresh EmptyString)).
  intros st H. discriminate H.
Defined.

(** X14.  After a health probe that was not answered with status 'healthy',
    [uploadFiles], [askQuestion] and [resetChat] send nothing, and they
    leave the conversation log and the document list as they were before
    the probe. *)
Theorem failed_probe_blocks_requests o env s :
  o <> Health.Resolves (Health.Object (Some "healthy")) ->
  forall h, In h [uploadFiles env; askQuestion env; resetChat env] ->
  requests h (after (checkHealth o) s) = []
  /\ conversation (after h (after (checkHealth o) s)) = conversation s
  /\ currentDocuments (after h (after (checkHealth o) s)) = currentDocuments s.
Proof.
  intros Ho h Hin.
  destruct (checkHealth_dispatch o s) as (st & msg & E & Hiff).
  assert (Hh : backendStatus (after (checkHealth o) s) <> "healthy").
  { unfold after. rewrite E. cbn. intros H. apply Ho. now apply Hiff. }
  assert (Hc : conversation (after (checkHealth o) s) = conversation s)
    by (unfold after; now rewrite E).
  assert (Hd : currentDocuments (after (checkHealth o) s) = currentDocuments s)
    by (unfold after; now rewrite E).
  rewrite <- Hc, <- Hd. generalize dependent (after (checkHealth o) s). intros s' Hh _ _.
  unfold requests, after.
  destruct Hin as [<- | [<- | [<- | []]]].
  - rewrite (uploadFiles_guarded env s' _ (uploadGuard_unhealthy s' Hh)). repeat split.
  - rewrite (askQuestion_guarded env s' _ (askGuard_unhealthy s' Hh)). repeat split.
  - rewrite (resetChat_guarded env s' _ (resetGuard_unhealthy s' Hh)). repeat split.
Qed.

Lemma failed_probe_blocks_requests_witness :
  requests (askQuestion (Sample.answers Sample.paris))
    (after (checkHealth (Health.Resolves (Health.Object (Some "degraded"))))
       (Sample.healthy [] ["france.txt"] [Sample.turn0] Sample.capital))
  = [].
Proof.
  apply (failed_probe_blocks_requests
           (Health.Resolves (Health.Object (Some "degraded")))
           (Sample.answers Sample.paris)
           (Sample.healthy [] ["france.txt"] [Sample.turn0] Sample.capital)).
  - intros H. discriminate H.
  - right. left. reflexivity.
Defined.

(** ** The rendered controls and the guards *)

(** X15.  The upload button and the guards of [uploadFiles] agree: when no
    request is in flight, the button is enabled exactly when a click sends
    the index request; a disabled button corresponds to a click that would
    send nothing. *)
Theorem upload_button_matches_guards env s :
  loading s = false ->
  (View.uploadDisabled s = false
   <-> requests (uploadFiles env) s = [POST_index (indexForm s)])
  /\ (View.uploadDisabled s = true <-> requests (uploadFiles env) s = []).
Proof.
  intros Hl. unfold requests. rewrite uploadFiles_sent.
  unfold View.uploadDisabled, uploadGuard. rewrite Hl. cbn [orb].
  destruct (List.length (files s) =? 0)%nat; cbn;
    [| destruct (negb (backendStatus s =? "healthy")%string); cbn ];
    repeat split; intros H; try reflexivity; discriminate H.
Qed.

Lemma upload_button_matches_guards_witness :
  View.uploadDisabled (Sample.healthy [Sample.france] [] [] EmptyString) = false
  <-> requests (uploadFiles Sample.offline)
        (Sample.healthy [Sample.france] [] [] EmptyString)
      = [POST_index (indexForm (Sample.healthy [Sample.france] [] [] EmptyString))].
Proof.
  apply (upload_button_matches_guards Sample.offline
           (Sample.healthy [Sample.france] [] [] EmptyString)).
  reflexivity.
Defined.

(** X16.  The Send button is not disabled by the backend status.  When the
    chat is rendered and the button is enabled, a click sends the question
    if the backend status is 'healthy'; otherwise it sends nothing and only
    shows the backend-not-healthy text. *)
Theorem send_button_ignores_backend_status env s :
  View.documentsListed s = true ->
  View.sendDisabled s = false ->
  (backendStatus s = "healthy" ->
     requests (askQuestion env) s = [POST_ask (question s)])
  /\ (backendStatus s <> "healthy" ->
      dispatch (askQuestion env) s
      = {| ui := withStatus BackendNotHealthy s; sent := [] |}).
Proof.
  unfold View.documentsListed, View.sendDisabled. intros Hd Hs.
  apply orb_false_elim in Hs. destruct Hs as [_ Hq].
  split.
  - intros Hh. unfold requests. rewrite askQuestion_sent.
    unfold askGuard. rewrite Hq. apply String.eqb_eq in Hh. rewrite Hh. cbn.
    destruct (currentDocuments s); [discriminate Hd | reflexivity].
  - intros Hh. apply askQuestion_guarded.
    rewrite (askGuard_unhealthy s Hh). now rewrite Hq.
Qed.

Lemma send_button_ignores_backend_status_witness :
  dispatch (askQuestion (Sample.answers Sample.paris))
    {| files := []; question := Sample.capital; conversation := [];
       loading := false; status := EmptyString; backendStatus := "error";
       currentDocuments := ["france.txt"] |}
  = {| ui := withStatus BackendNotHealthy
               {| files := []; question := Sample.capital; conversation := [];
                  loading := false; status := EmptyString; backendStatus := "error";
                  currentDocuments := ["france.txt"] |};
       sent := [] |}.
Proof.
  apply (send_button_ignores_backend_status (Sample.answers Sample.paris)
           {| files := []; question := Sample.capital; conversation := [];
              loading := false; status := EmptyString; backendStatus := "error";
              currentDocuments := ["france.txt"] |}).
  - reflexivity.
  - reflexivity.
  - intros H. discriminate H.
Defined.

(** ** The keyboard *)

Lemma bind_ret_world {A B} (c : Handler A) (b : B) w :
  snd ((c ;; ret b) w) = snd (c w).
Proof. unfold bind, ret. now destruct (c w) as [[a | m] w']. Qed.

Lemma onKeyPress_dispatch env k s :
  dispatch (onKeyPress env k) s
  = if (key k =? "Enter")%string && negb (shiftKey k)
    then dispatch (askQuestion env) s
    else {| ui := s; sent := [] |}.
Proof.
  unfold dispatch, onKeyPress, handleKeyPress.
  destruct ((key k =? "Enter")%string && negb (shiftKey k)).
  - now rewrite !bind_ret_world.
  - reflexivity.
Qed.

(** X17.  A key pressed in the textarea sends a request only when it is
    Enter without Shift and the question passes the guards of
    [askQuestion] (not blank, backend healthy, a document listed); the
    request is then the one of [askQuestion].  Shift+Enter and every other
    key leave the state as it is and send nothing. *)
Theorem key_press_sends_on_plain_enter env k s :
  (requests (onKeyPress env k) s <> [] ->
     key k = "Enter" /\ shiftKey k = false
     /\ Js.trim (question s) <> EmptyString
     /\ backendStatus s = "healthy"
     /\ currentDocuments s <> []
     /\ requests (onKeyPress env k) s = [POST_ask (question s)])
  /\ (key k <> "Enter" \/ shiftKey k = true ->
      dispatch (onKeyPress env k) s = {| ui := s; sent := [] |}).
Proof.
  unfold requests. rewrite onKeyPress_dispatch. split.
  - destruct (String.eqb_spec (key k) "Enter") as [He | He];
      destruct (shiftKey k); cbn [andb negb]; intros H; try (now elim H).
    rewrite askQuestion_sent in *.
    destruct (askGuard s) eqn:G; [now elim H|].
    apply askGuard_passes in G. tauto.
  - intros [Hk | Hs].
    + apply String.eqb_neq in Hk. now rewrite Hk.
    + rewrite Hs. now rewrite andb_false_r.
Qed.

Lemma key_press_sends_on_plain_enter_witness :
  dispatch (onKeyPress (Sample.answers Sample.paris)
              {| key := "Enter"; shiftKey := true |})
    (Sample.healthy [] ["france.txt"] [] Sample.capital)
  = {| ui := Sample.healthy [] ["france.txt"] [] Sample.capital; sent := [] |}.
Proof.
  apply (key_press_sends_on_plain_enter (Sample.answers Sample.paris)
           {| key := "Enter"; shiftKey := true |}
           (Sample.healthy [] ["france.txt"] [] Sample.capital)).
  right. reflexivity.
Defined.

(** ** Invariants of whole sessions *)

Lemma uploadGuard_files s : uploadGuard s = None -> files s <> [].
Proof.
  unfold uploadGuard. intros G E. rewrite E in G. discriminate G.
Qed.

Lemma NoDup_filter_length (d : string) (docs : list string) :
  NoDup docs ->
  List.length docs <= S (List.length (filter (fun doc => negb (doc =? d)%string) docs)).
Proof.
  induction 1 as [|x docs Hnin Hnd IH]; [cbn; lia|].
  cbn. destruct (String.eqb_spec x d) as [->|Hx]; cbn; [|lia].
  rewrite (filter_absent d docs Hnin). lia.
Qed.

Lemma step_grounded e s :
  distinctSelection (User e) -> grounded s -> grounded (step e s).
Proof.
  unfold grounded. intros Hsel (Hd & Hf & Hc).
  destruct e as [fs | q | env | d | env | env]; cbn [step]; unfold after.
  - cbn. auto.
  - cbn. auto.
  - destruct (uploadGuard s) as [msg|] eqn:G.
    + rewrite (uploadFiles_guarded env s msg G). cbn. auto.
    + pose proof (uploadGuard_files s G) as Hne.
      destruct (uploadFiles_outcomes env s G)
        as (? & docs & log & fs & -> & [-> | ->] & [-> | ->] & [-> | ->]);
        cbn; repeat split; auto; try constructor; intros E;
        try (apply map_eq_nil in E; contradiction).
  - rewrite removeDocument_dispatch. cbn. repeat split; auto.
    + now apply NoDup_filter.
    + intros E. pose proof (NoDup_filter_length d _ Hd) as Hlen. rewrite E in Hlen.
      cbn in Hlen. destruct (currentDocuments s) as [|x [|y l]]; cbn in *; auto; lia.
  - destruct (askGuard s) as [msg|] eqn:G.
    + rewrite (askQuestion_guarded env s msg G). cbn. auto.
    + pose proof (proj1 (askGuard_passes s) G) as (_ & _ & Hne).
      destruct (askQuestion_outcomes env s G) as (? & ? & ? & -> & _).
      cbn. repeat split; auto. intros E. contradiction.
  - destruct (resetGuard s) as [msg|] eqn:G.
    + rewrite (resetChat_guarded env s msg G). cbn. auto.
    + destruct (resetChat_outcomes env s G) as (? & ? & -> & [-> | ->]); cbn; auto.
Qed.

Lemma act_grounded a s :
  distinctSelection a -> grounded s -> grounded (act a s).
Proof.
  destruct a as [o | e | env k]; cbn [act].
  - intros _ H. unfold after.
    destruct (checkHealth_dispatch o s) as (? & ? & -> & _). exact H.
  - apply step_grounded.
  - intros _ H. unfold after. rewrite onKeyPress_dispatch.
    destruct (_ && _); [| exact H].
    exact (step_grounded (ClickSend env) s I H).
Qed.

(** X18.  In sessions whose actions do not overlap (each handler has run
    to its end before the next action arrives; an action that arrives
    while a request is pending is outside this statement), and in which
    the files of every selection have pairwise distinct names, the
    conversation never outlives the documents: starting from a state where
    no name is repeated and the log is empty if no document is listed (the
    state after mount is one), after any sequence of probes, user events
    and key presses, whatever the backend answers, an empty document list
    comes with an empty conversation log, and no listed name is
    repeated. *)
Theorem conversation_needs_documents acts : forall s,
  Forall distinctSelection acts ->
  grounded s ->
  grounded (play acts s)
  /\ (sessionState (play acts s) = Empty -> conversation (play acts s) = []).
Proof.
  assert (H : forall s, Forall distinctSelection acts -> grounded s ->
                        grounded (play acts s)).
  { induction acts as [|a acts IH]; intros s Hall Hg; [exact Hg|].
    inversion Hall; subst.
    change (play (a :: acts) s) with (play acts (act a s)).
    apply IH; [assumption | now apply act_grounded]. }
  intros s Hall Hg. specialize (H s Hall Hg). split; [exact H|].
  destruct H as (_ & _ & Hc). unfold sessionState.
  destruct (currentDocuments (play acts s)); [auto | discriminate].
Qed.

Lemma conversation_needs_documents_witness :
  conversation
    (play [Probe (Health.Resolves (Health.Object (Some "healthy")));
           User (SelectFiles [Sample.france]);
           User (ClickUpload (Sample.answers Sample.paris));
           User (TypeQuestion Sample.capital);
           KeyPress (Sample.answers Sample.paris) {| key := "Enter"; shiftKey := false |};
           User (ClickRemove "france.txt")]
       (Sample.fresh EmptyString)) = [].
Proof.
  apply (conversation_needs_documents
           [Probe (Health.Resolves (Health.Object (Some "healthy")));
            User (SelectFiles [Sample.france]);
            User (ClickUpload (Sample.answers Sample.paris));
            User (TypeQuestion Sample.capital);
            KeyPress (Sample.answers Sample.paris) {| key := "Enter"; shiftKey := false |};
            User (ClickRemove "france.txt")]
           (Sample.fresh EmptyString)).
  - repeat constructor. cbn. intros [].
  - repeat split; cbn; constructor.
  - reflexivity.
Defined.

(** The status texts a handler can leave: a property of all of them holds
    of the status after the handler. *)
Lemma uploadFiles_status_shape env s (P : string -> Prop) :
  P NoFilesSelected -> P BackendNotHealthy ->
  (forall m, P ("Error: " ++ m)%string) ->
  (forall d r,
     P (NilEmpty.string_of_uint d ++ " document(s) indexed successfully! " ++ r)%string) ->
  P (status (after (uploadFiles env) s)).
Proof.
  intros P1 P2 P3 P4.
  unfold after. destruct (uploadGuard s) as [msg|] eqn:G.
  - rewrite (uploadFiles_guarded env s msg G). cbn.
    unfold uploadGuard in G. guard_cases; injection G as <-; assumption.
  - destruct (succeeded (Env.backend env (POST_index (indexForm s)))) as [d|] eqn:Hs.
    + rewrite (uploadFiles_success env s d G Hs). cbn [ui status]. apply P4.
    + destruct (Env.backend env (POST_index (indexForm s))) as [m | [[] [m | | d]]] eqn:Hb;
        try discriminate Hs.
      all: first
        [ rewrite (uploadFiles_null env s G Hb)
        | destruct (uploadFiles_failure env s G) as [msg ->];
          [ now rewrite Hb | rewrite Hb; discriminate | ] ];
        apply P3.
Qed.

Lemma askQuestion_status_shape env s (P : string -> Prop) :
  P BlankQuestion -> P BackendNotHealthy ->
  (currentDocuments s = [] -> P NoDocumentsIndexed) ->
  P "Question answered successfully!"%string ->
  (forall m, P ("Error: " ++ m)%string) ->
  P (status (after (askQuestion env) s)).
Proof.
  intros P1 P2 P3 P4 P5.
  unfold after. destruct (askGuard s) as [msg|] eqn:G.
  - rewrite (askQuestion_guarded env s msg G). cbn.
    unfold askGuard in G. guard_cases; injection G as <-; try assumption.
    apply P3. destruct (currentDocuments s); [reflexivity | discriminate].
  - destruct (succeeded (Env.backend env (POST_ask (question s)))) as [d|] eqn:Hs.
    + rewrite (askQuestion_success env s d G Hs). exact P4.
    + destruct (askQuestion_failure env s G Hs) as [m ->]. apply P5.
Qed.

Lemma resetChat_status_shape env s (P : string -> Prop) :
  P BackendNotHealthy ->
  P "Chat reset successfully! AI has forgotten the previous conversation."%string ->
  (forall m, P ("Error: " ++ m)%string) ->
  P (status (after (resetChat env) s)).
Proof.
  intros P1 P2 P3.
  unfold after. destruct (resetGuard s) as [msg|] eqn:G.
  - rewrite (resetChat_guarded env s msg G). cbn.
    unfold resetGuard in G. guard_cases; injection G as <-; assumption.
  - destruct (Env.backend env POST_clear_memory) as [m | [[] b]] eqn:Hb.
    + destruct (resetChat_failure env s G) as [msg ->]; [| apply P3].
      intros r Hr. rewrite Hb in Hr. discriminate.
    + rewrite (resetChat_success env s _ G Hb eq_refl). exact P2.
    + destruct (resetChat_failure env s G) as [msg ->]; [| apply P3].
      intros r Hr. rewrite Hb in Hr. now injection Hr as <-.
Qed.

Lemma checkHealth_status_shape o s (P : string -> Prop) :
  (forall t, P ("Backend: " ++ t)%string) ->
  (forall m, P ("Backend Error: " ++ m)%string) ->
  P (status (after (checkHealth o) s)).
Proof.
  intros P1 P2. unfold after, dispatch, checkHealth.
  destruct o as [m | [m | | x]]; cbn; first [apply P1 | apply P2].
Qed.

Lemma indexed_status_differs d r :
  (NilEmpty.string_of_uint d ++ " document(s) indexed successfully! " ++ r)%string
  <> NoDocumentsIndexed.
Proof. destruct d; cbn; discriminate. Qed.

Lemma uploadFiles_status env s :
  status (after (uploadFiles env) s) <> NoDocumentsIndexed.
Proof.
  apply uploadFiles_status_shape; try discriminate.
  apply indexed_status_differs.
Qed.

Lemma askQuestion_status env s :
  currentDocuments s <> [] ->
  status (after (askQuestion env) s) <> NoDocumentsIndexed.
Proof.
  intros Hd. apply askQuestion_status_shape; try discriminate. congruence.
Qed.

Lemma resetChat_status env s :
  status (after (resetChat env) s) <> NoDocumentsIndexed.
Proof. apply resetChat_status_shape; discriminate. Qed.

Lemma checkHealth_status o s :
  status (after (checkHealth o) s) <> NoDocumentsIndexed.
Proof. apply checkHealth_status_shape; discriminate. Qed.

Lemma documentsListed_nonempty s :
  View.documentsListed s = true -> currentDocuments s <> [].
Proof.
  unfold View.documentsListed. intros H E. rewrite E in H. discriminate H.
Qed.

Lemma act_status a s :
  offered a s = true ->
  status (act a s) = NoDocumentsIndexed -> status s = NoDocumentsIndexed.
Proof.
  destruct a as [o | [fs | q | env | d | env | env] | env k]; cbn [act step offered];
    intros Hoff Hst.
  - now apply checkHealth_status in Hst.
  - exact Hst.
  - exact Hst.
  - now apply uploadFiles_status in Hst.
  - unfold after in Hst. rewrite removeDocument_dispatch in Hst. discriminate Hst.
  - apply andb_prop in Hoff. destruct Hoff as [Hd _].
    now apply askQuestion_status in Hst; [| apply documentsListed_nonempty].
  - now apply resetChat_status in Hst.
  - apply andb_prop in Hoff. destruct Hoff as [Hd _].
    unfold after in Hst. rewrite onKeyPress_dispatch in Hst.
    destruct (_ && _); [| exact Hst].
    now apply (askQuestion_status env s) in Hst; [| apply documentsListed_nonempty].
Qed.

(** X19.  Through the rendered interface the no-documents refusal of
    [askQuestion] is never shown: in any sequence of actions each of which
    the interface offers in the state it is performed in (the chat, and
    with it the Send button and the textarea, is rendered only while a
    document is listed), the status text never becomes the no-documents
    text, whatever the backend answers. *)
Theorem offered_play_never_refuses_for_documents acts : forall s,
  offeredPlay acts s = true ->
  status s <> NoDocumentsIndexed ->
  status (play acts s) <> NoDocumentsIndexed.
Proof.
  induction acts as [|a acts IH]; intros s Hoff Hst; [exact Hst|].
  cbn [offeredPlay] in Hoff. apply andb_prop in Hoff. destruct Hoff as [Ha Hrest].
  change (play (a :: acts) s) with (play acts (act a s)).
  apply IH; [exact Hrest|]. intros H. apply Hst. now apply (act_status a s).
Qed.

Lemma offered_play_never_refuses_for_documents_witness :
  status
    (play [Probe (Health.Resolves (Health.Object (Some "healthy")));
           User (SelectFiles [Sample.france]);
           User (ClickUpload (Sample.answers Sample.paris));
           User (ClickRemove "france.txt");
           User (SelectFiles [Sample.france])]
       (Sample.fresh EmptyString))
  <> NoDocumentsIndexed.
Proof.
  apply (offered_play_never_refuses_for_documents
           [Probe (Health.Resolves (Health.Object (Some "healthy")));
            User (SelectFiles [Sample.france]);
            User (ClickUpload (Sample.answers Sample.paris));
            User (ClickRemove "france.txt");
            User (SelectFiles [Sample.france])]
           (Sample.fresh EmptyString)).
  - reflexivity.
  - cbn. discriminate.
Defined.

(** ** Feedback and the state after a success *)

(** X20.  A successful upload always leaves the session [Indexed]: the
    guard has made sure that files were selected, so the new document list
    has as many entries as the selection and is not empty; the selection is
    cleared, and the interface switches from the file input to the
    document list and the chat. *)
Theorem upload_success_indexes env s d :
  requests (uploadFiles env) s <> [] ->
  succeeded (Env.backend env (POST_index (indexForm s))) = Some d ->
  sessionState (after (uploadFiles env) s) = Indexed
  /\ View.documentsListed (after (uploadFiles env) s) = true
  /\ List.length (currentDocuments (after (uploadFiles env) s)) = List.length (files s)
  /\ files (after (uploadFiles env) s) = [].
Proof.
  intros Hreq Hs. apply uploadFiles_calls in Hreq.
  pose proof (uploadGuard_files s Hreq) as Hne.
  unfold after, sessionState, View.documentsListed.
  rewrite (uploadFiles_success env s d Hreq Hs). cbn [ui currentDocuments files].
  rewrite length_map. destruct (files s); [congruence|]. repeat split.
Qed.

Lemma upload_success_indexes_witness :
  sessionState
    (after (uploadFiles (Sample.answers Sample.paris))
       (Sample.healthy [Sample.france] [] [] EmptyString)) = Indexed.
Proof.
  apply (upload_success_indexes (Sample.answers Sample.paris)
           (Sample.healthy [Sample.france] [] [] EmptyString) Sample.paris).
  - cbn. discriminate.
  - reflexivity.
Defined.

(** X21.  Every handler leaves a status text that is not empty, so the
    status box is rendered after it: this holds for [uploadFiles],
    [askQuestion], [resetChat], [removeDocument] and [checkHealth], on
    every path and whatever the backend answers. *)
Theorem handlers_always_report env d o s :
  forall h,
    In h [uploadFiles env; askQuestion env; resetChat env; removeDocument d;
          checkHealth o] ->
    View.statusShown (after h s) = true.
Proof.
  unfold View.statusShown. intros h Hin.
  apply negb_true_iff.
  destruct Hin as [<- | [<- | [<- | [<- | [<- | []]]]]].
  - apply uploadFiles_status_shape; try reflexivity.
    intros [] r; reflexivity.
  - apply askQuestion_status_shape; reflexivity.
  - apply resetChat_status_shape; reflexivity.
  - unfold after. rewrite removeDocument_dispatch. reflexivity.
  - apply checkHealth_status_shape; reflexivity.
Qed.

Lemma handlers_always_report_witness :
  View.statusShown
    (after (removeDocument "a.txt") (Sample.fresh EmptyString)) = true.
Proof.
  apply (handlers_always_report Sample.offline "a.txt" (Health.Rejects "down")
           (Sample.fresh EmptyString)).
  do 3 right. left. reflexivity.
Defined.

(** X22.  After an answered question the input is empty, so the Send
    button is disabled until something is typed, and asking again at once
    (the Enter key still reaches the handler) sends nothing: it is refused
    as a blank question and the conversation log keeps the new turn. *)
Theorem answered_question_disables_send env env' s :
  requests (askQuestion env) s <> [] ->
  succeeded (Env.backend env (POST_ask (question s))) <> None ->
  View.sendDisabled (after (askQuestion env) s) = true
  /\ dispatch (askQuestion env') (after (askQuestion env) s)
     = {| ui := withStatus BlankQuestion (after (askQuestion env) s); sent := [] |}.
Proof.
  intros Hreq Hs. apply askQuestion_calls in Hreq.
  destruct (succeeded (Env.backend env (POST_ask (question s)))) as [d|] eqn:Hsd;
    [clear Hs | congruence].
  unfold after. rewrite (askQuestion_success env s d Hreq Hsd). cbn [ui]. split.
  - unfold View.sendDisabled. cbn. reflexivity.
  - apply askQuestion_guarded. reflexivity.
Qed.

Lemma answered_question_disables_send_witness :
  View.sendDisabled
    (after (askQuestion (Sample.answers Sample.paris))
       (Sample.healthy [] ["france.txt"] [] Sample.capital)) = true.
Proof.
  apply (answered_question_disables_send (Sample.answers Sample.paris) Sample.offline
           (Sample.healthy [] ["france.txt"] [] Sample.capital)).
  - cbn. discriminate.
  - cbn. discriminate.
Defined.
